(** * Timber stumpage price harmonisation: a shallow embedding

    The development follows the Python scripts of the repository:

    - [scripts/combine_stumpage_data.py]  (normaliser, adapters, converter,
      unification engine),
    - [scripts/unit_conversion_factors.py] (conversion factor registry),
    - [scripts/parse_nh_stumpage.py]       (table row classifier),
    - [scripts/integrate_usfs_pnw.py]      (transforms and merge of the USFS
      PNW rows),
    - [scripts/integrate_tn_forestry.py]   (merge policy of the Tennessee rows).

    Conventions of the embedding.

    - Python [str] values are [string]s; the text is taken to be ASCII, so
      [str.lower] and [str.upper] act on the letters A-Z / a-z and
      [str.strip] removes the ASCII white space characters.
    - A missing value (pandas [None] / [NaN], for which [pd.isna] holds) is
      [None] of an [option].
    - Decimal numbers are the rationals they denote ([Q]); binary rounding
      of Python floats is not modelled, and Python's [round] is a parameter
      of the definitions that call it.  No general statement below depends
      on the value of a quotient. *)

From Stdlib Require Import Bool Arith ZArith QArith Lia List Permutation.
From Stdlib Require Import Strings.Ascii Strings.String.
Import ListNotations.

Open Scope string_scope.

(* ================================================================== *)
(** ** Python string primitives *)
(* ================================================================== *)

Module Py.

(** Code point ranges. *)
Definition in_range (lo hi : nat) (c : ascii) : bool :=
  let n := nat_of_ascii c in (lo <=? n)%nat && (n <=? hi)%nat.

Definition is_upper (c : ascii) : bool := in_range 65 90 c.
Definition is_lower (c : ascii) : bool := in_range 97 122 c.
Definition is_digit (c : ascii) : bool := in_range 48 57 c.

(** [str.isspace] on ASCII: TAB, LF, VT, FF, CR, FS, GS, RS, US, SPACE. *)
Definition is_space (c : ascii) : bool :=
  in_range 9 13 c || in_range 28 32 c.

Definition lower_char (c : ascii) : ascii :=
  if is_upper c then ascii_of_nat (nat_of_ascii c + 32) else c.

Definition upper_char (c : ascii) : ascii :=
  if is_lower c then ascii_of_nat (nat_of_ascii c - 32) else c.

Fixpoint smap (f : ascii -> ascii) (s : string) : string :=
  match s with
  | EmptyString => EmptyString
  | String c t => String (f c) (smap f t)
  end.

(** [s.lower()] and [s.upper()]. *)
Definition lower : string -> string := smap lower_char.
Definition upper : string -> string := smap upper_char.

(** [s.lstrip()], [s.rstrip()], [s.strip()]. *)
Fixpoint lstrip (s : string) : string :=
  match s with
  | EmptyString => EmptyString
  | String c t => if is_space c then lstrip t else s
  end.

Fixpoint rstrip (s : string) : string :=
  match s with
  | EmptyString => EmptyString
  | String c t =>
      match rstrip t with
      | EmptyString => if is_space c then EmptyString else String c EmptyString
      | r => String c r
      end
  end.

Definition strip (s : string) : string := rstrip (lstrip s).

(** [sub in s]. *)
Fixpoint contains (sub s : string) : bool :=
  String.prefix sub s ||
  match s with
  | EmptyString => false
  | String _ t => contains sub t
  end.

(** [any(x in s for x in subs)]. *)
Definition contains_any (subs : list string) (s : string) : bool :=
  existsb (fun x => contains x s) subs.

(** [s in [a, b, ...]] (membership of a string in a list literal). *)
Definition mem (s : string) (l : list string) : bool :=
  existsb (String.eqb s) l.

(** [s.replace(old, new)] for a one-character [old]. *)
Fixpoint replace_char (old : ascii) (new : string) (s : string) : string :=
  match s with
  | EmptyString => EmptyString
  | String c t =>
      if Ascii.eqb c old then new ++ replace_char old new t
      else String c (replace_char old new t)
  end.

(** [s.isdigit()]: non-empty and made of digits only. *)
Fixpoint all_digits (s : string) : bool :=
  match s with
  | EmptyString => true
  | String c t => is_digit c && all_digits t
  end.

Definition isdigit (s : string) : bool :=
  match s with
  | EmptyString => false
  | _ => all_digits s
  end.

(** Truthiness of an optional text cell: [None] and [''] are falsy. *)
Definition truthy (c : option string) : bool :=
  match c with
  | None | Some EmptyString => false
  | Some _ => true
  end.

End Py.

(* ================================================================== *)
(** ** Schema normaliser ([combine_stumpage_data.py], lines 44-152) *)
(* ================================================================== *)

Module Normalizer.
Import Py.

(** The body of [standardize_product_type] once [product] has been
    lower-cased and stripped: the chain of [if ... return] statements,
    in source order. *)
Definition classify_product (product : string) : string :=
  (* Sawtimber variants (check before generic 'log' check) *)
  if contains_any ["sawtimber"; "sawlog"; "saw log"; "sawlogs"] product then
    if contains "large" product then "sawtimber_large"
    else if contains "small" product then "sawtimber_small"
    else "sawtimber"
  (* Generic logs -> sawtimber *)
  else if mem product ["log"; "logs"]
          || contains "hardwood_sawlog" product
          || contains "softwood_sawlog" product then "sawtimber"
  (* MBF products are sawtimber *)
  else if product =? "mbf" then "sawtimber"
  (* Pulpwood *)
  else if contains "pulpwood" product || contains "pulp" product then "pulpwood"
  (* Chip-n-saw *)
  else if contains "chip" product && contains "saw" product then "chip-n-saw"
  (* Veneer *)
  else if contains "veneer" product then "veneer"
  (* Poles *)
  else if contains "pole" product then "poles"
  (* Firewood/Fuelwood *)
  else if contains "firewood" product || contains "fuelwood" product
          || (contains "fuel" product && negb (contains "chip" product))
       then "firewood"
  (* Fiber/Fuel combined *)
  else if contains "fiber" product then "fiber_fuel"
  (* Biomass *)
  else if contains "biomass" product then "biomass"
  (* Boltwood *)
  else if contains "bolt" product then "boltwood"
  (* Studwood *)
  else if contains "stud" product then "studwood"
  (* Cordwood *)
  else if contains "cordwood" product || (product =? "cord") then "cordwood"
  (* Posts *)
  else if contains "post" product then "posts"
  (* Crossties *)
  else if contains "crosstie" product || contains "tie" product then "crossties"
  (* Plylogs *)
  else if contains "plylog" product then "plylogs"
  (* T-wood/Topwood *)
  else if contains "t-wood" product || contains "topwood" product then "topwood"
  (* Fuelchips *)
  else if contains "fuelchip" product then "fuelchips"
  (* Stumpage (generic) *)
  else if contains "stumpage" product then "sawtimber"
  (* Total/Index *)
  else if contains "total" product || contains "index" product then "total_index"
  else product.

(** [standardize_product_type]: [None] for a missing value, otherwise the
    classification of [str(product).lower().strip()]. *)
Definition standardize_product_type (product : option string) : option string :=
  match product with
  | None => None
  | Some p => Some (classify_product (strip (lower p)))
  end.

(** The body of [standardize_unit] after lower-casing and stripping. *)
Definition classify_unit (unit : string) : string :=
  if contains "mbf" unit || contains "thousand board" unit then "$/mbf"
  else if contains "cord" unit then "$/cord"
  else if contains "ton" unit then "$/ton"
  else unit.

Definition standardize_unit (unit : option string) : option string :=
  match unit with
  | None => None
  | Some u => Some (classify_unit (strip (lower u)))
  end.

(** Some text triggers one of the rules of [standardize_product_type]:
    the disjunction of the conditions of the chain. *)
Definition product_rule_matches (product : string) : bool :=
  contains_any ["sawtimber"; "sawlog"; "saw log"; "sawlogs"] product
  || (mem product ["log"; "logs"]
      || contains "hardwood_sawlog" product
      || contains "softwood_sawlog" product)
  || (product =? "mbf")
  || (contains "pulpwood" product || contains "pulp" product)
  || (contains "chip" product && contains "saw" product)
  || contains "veneer" product
  || contains "pole" product
  || (contains "firewood" product || contains "fuelwood" product
      || (contains "fuel" product && negb (contains "chip" product)))
  || contains "fiber" product
  || contains "biomass" product
  || contains "bolt" product
  || contains "stud" product
  || (contains "cordwood" product || (product =? "cord"))
  || contains "post" product
  || (contains "crosstie" product || contains "tie" product)
  || contains "plylog" product
  || (contains "t-wood" product || contains "topwood" product)
  || contains "fuelchip" product
  || contains "stumpage" product
  || (contains "total" product || contains "index" product).

(** Some text triggers one of the rules of [standardize_unit]. *)
Definition unit_rule_matches (unit : string) : bool :=
  (contains "mbf" unit || contains "thousand board" unit)
  || contains "cord" unit
  || contains "ton" unit.

End Normalizer.

(* ================================================================== *)
(** ** Conversion factor registry ([unit_conversion_factors.py]) *)
(* ================================================================== *)

Module Registry.
Import Py.

(** The dataclass [ConversionFactor]; the citation fields [source] and
    [notes] carry no behaviour and are left out. *)
Record ConversionFactor := {
  factor : Q;               (* tons per unit *)
  unit_from : string;
  unit_to : string;
  species_group : string;
  product_type : string
}.

Definition CORD_TO_TON : list (string * ConversionFactor) :=
  [ ("pine_pulpwood",           Build_ConversionFactor 2.67 "cord" "ton" "Pine" "Pulpwood");
    ("pine_loblolly_shortleaf", Build_ConversionFactor 2.60 "cord" "ton" "Pine" "Pulpwood");
    ("pine_longleaf_slash",     Build_ConversionFactor 2.78 "cord" "ton" "Pine" "Pulpwood");
    ("hardwood_soft",           Build_ConversionFactor 2.70 "cord" "ton" "Hardwood" "Pulpwood");
    ("hardwood_mixed",          Build_ConversionFactor 2.80 "cord" "ton" "Hardwood" "Pulpwood");
    ("hardwood_hard",           Build_ConversionFactor 2.90 "cord" "ton" "Hardwood" "Pulpwood");
    ("softwood_avg",            Build_ConversionFactor 2.67 "cord" "ton" "Softwood" "Pulpwood");
    ("hardwood_avg",            Build_ConversionFactor 2.80 "cord" "ton" "Hardwood" "Pulpwood") ].

Definition MBF_TO_TON : list (string * ConversionFactor) :=
  [ ("pine_sawtimber_10in",     Build_ConversionFactor 14.0 "mbf" "ton" "Pine" "Sawtimber");
    ("pine_sawtimber_14in",     Build_ConversionFactor 8.5  "mbf" "ton" "Pine" "Sawtimber");
    ("pine_sawtimber_18in",     Build_ConversionFactor 7.2  "mbf" "ton" "Pine" "Sawtimber");
    ("pine_sawtimber_24in",     Build_ConversionFactor 5.9  "mbf" "ton" "Pine" "Sawtimber");
    ("pine_sawtimber_avg",      Build_ConversionFactor 7.0  "mbf" "ton" "Pine" "Sawtimber");
    ("hardwood_sawtimber_14in", Build_ConversionFactor 12.1 "mbf" "ton" "Hardwood" "Sawtimber");
    ("hardwood_sawtimber_18in", Build_ConversionFactor 9.8  "mbf" "ton" "Hardwood" "Sawtimber");
    ("hardwood_sawtimber_24in", Build_ConversionFactor 8.1  "mbf" "ton" "Hardwood" "Sawtimber");
    ("hardwood_sawtimber_avg",  Build_ConversionFactor 8.5  "mbf" "ton" "Hardwood" "Sawtimber") ].

(** [table[key].factor]; every key used below is a literal of the table,
    so the [KeyError] branch is never taken. *)
Fixpoint factor_at (table : list (string * ConversionFactor)) (key : string) : Q :=
  match table with
  | [] => 0
  | (k, cf) :: rest => if k =? key then factor cf else factor_at rest key
  end.

Definition softwood_keywords : list string :=
  ["pine"; "spruce"; "fir"; "hemlock"; "cedar"; "softwood"].

(** [get_cord_to_ton_factor(species, product_type)]. *)
Definition get_cord_to_ton_factor (species : string) (product_type : option string) : Q :=
  let species_lower := lower species in
  (* Pine/softwood species *)
  if contains_any softwood_keywords species_lower then
    factor_at CORD_TO_TON "pine_pulpwood"
  (* Hard hardwoods *)
  else if contains_any ["oak"; "hickory"; "beech"; "hard maple"; "sugar maple";
                        "walnut"; "cherry"] species_lower then
    factor_at CORD_TO_TON "hardwood_hard"
  (* Soft hardwoods *)
  else if contains_any ["poplar"; "tulip"; "sweetgum"; "basswood"; "soft maple";
                        "aspen"; "cottonwood"] species_lower then
    factor_at CORD_TO_TON "hardwood_soft"
  (* Mixed/default hardwood *)
  else if contains_any ["hardwood"; "mixed"; "ash"; "birch"; "elm"] species_lower then
    factor_at CORD_TO_TON "hardwood_mixed"
  (* Default to mixed hardwood (middle value) *)
  else factor_at CORD_TO_TON "hardwood_mixed".

(** [get_mbf_to_ton_factor(species, product_type)]. *)
Definition get_mbf_to_ton_factor (species : string) (product_type : option string) : Q :=
  let species_lower := lower species in
  (* Pine/softwood species *)
  if contains_any softwood_keywords species_lower then
    factor_at MBF_TO_TON "pine_sawtimber_avg"
  (* Hardwood species (use average) *)
  else factor_at MBF_TO_TON "hardwood_sawtimber_avg".

(** The species text names one of the groups the registry knows: any of
    the keyword lists of [get_cord_to_ton_factor] matches. *)
Definition known_species_group (species : string) : bool :=
  let species_lower := lower species in
  contains_any softwood_keywords species_lower
  || contains_any ["oak"; "hickory"; "beech"; "hard maple"; "sugar maple";
                   "walnut"; "cherry"] species_lower
  || contains_any ["poplar"; "tulip"; "sweetgum"; "basswood"; "soft maple";
                   "aspen"; "cottonwood"] species_lower
  || contains_any ["hardwood"; "mixed"; "ash"; "birch"; "elm"] species_lower.

End Registry.

(* ================================================================== *)
(** ** Canonical records and the price unit converter *)
(* ================================================================== *)

(** One row of the unified table, with the columns of [UNIFIED_COLUMNS]. *)
Record CanonicalRecord := {
  source : string;
  year : option Z;
  quarter : option Z;
  period_type : string;
  region : option string;
  county : option string;
  species : option string;
  product_type : option string;
  price_avg : option Q;
  price_low : option Q;
  price_high : option Q;
  unit : option string;
  price_per_ton : option Q;
  conversion_factor : option Q;
  sample_size : option Q;
  notes : option string
}.

(** Column assignment [row['conversion_factor'] = v]. *)
Definition set_conversion_factor (row : CanonicalRecord) (v : option Q) : CanonicalRecord :=
  {| source := source row; year := year row; quarter := quarter row;
     period_type := period_type row; region := region row; county := county row;
     species := species row; product_type := product_type row;
     price_avg := price_avg row; price_low := price_low row;
     price_high := price_high row; unit := unit row;
     price_per_ton := price_per_ton row; conversion_factor := v;
     sample_size := sample_size row; notes := notes row |}.

(** Column assignment [row['price_per_ton'] = v]. *)
Definition set_price_per_ton (row : CanonicalRecord) (v : option Q) : CanonicalRecord :=
  {| source := source row; year := year row; quarter := quarter row;
     period_type := period_type row; region := region row; county := county row;
     species := species row; product_type := product_type row;
     price_avg := price_avg row; price_low := price_low row;
     price_high := price_high row; unit := unit row;
     price_per_ton := v; conversion_factor := conversion_factor row;
     sample_size := sample_size row; notes := notes row |}.

Module Converter.
Import Py.

(** [str(x).lower() if pd.notna(x) else ''] and [str(x) if ... else '']. *)
Definition lower_or_empty (x : option string) : string :=
  match x with Some s => lower s | None => "" end.

Definition str_or_empty (x : option string) : string :=
  match x with Some s => s | None => "" end.

(** The closure [get_conversion_factor(row)] of [main]. *)
Definition get_conversion_factor (row : CanonicalRecord) : option Q :=
  let unit := lower_or_empty (unit row) in
  let species := str_or_empty (species row) in
  if contains "ton" unit then Some 1.0
  else if contains "cord" unit then
    Some (Registry.get_cord_to_ton_factor species (product_type row))
  else if contains "mbf" unit then
    Some (Registry.get_mbf_to_ton_factor species (product_type row))
  else if contains "index" unit then None  (* Cannot convert index to actual price *)
  else None.

(** The closure [convert_price(row, price_col)]; [price_col] is the
    column read by [row[price_col]]. *)
Definition convert_price (row : CanonicalRecord)
           (price_col : CanonicalRecord -> option Q) : option Q :=
  match price_col row with
  | None => None
  | Some price =>
      match conversion_factor row with
      | None => None
      | Some factor =>
          let unit := lower_or_empty (unit row) in
          if contains "ton" unit then Some price
          else if contains "cord" unit || contains "mbf" unit then Some (price / factor)
          else None
      end
  end.

(** The two [combined.apply(..., axis=1)] passes of [main] on one row. *)
Definition convert_row (row : CanonicalRecord) : CanonicalRecord :=
  let row := set_conversion_factor row (get_conversion_factor row) in
  set_price_per_ton row (convert_price row price_avg).

End Converter.

(* ================================================================== *)
(** ** Source adapters and the unification engine
       ([combine_stumpage_data.py], lines 155-686) *)
(* ================================================================== *)

(** One row of a per-source parsed CSV file, as [pd.read_csv] yields it:
    the union of the columns the loaders read.  A column a file does not
    have is absent from [columns] of its frame. *)
Module Csv.
Record Row := {
  year : option Z;
  quarter : option Z;
  season : option string;
  region : option string;
  market_area : option string;
  zone : option string;
  county : option string;
  species : option string;
  species_group : option string;
  product : option string;
  product_type : option string;
  product_type_normalized : option string;
  price : option Q;
  price_avg : option Q;
  price_low : option Q;
  price_high : option Q;
  price_min : option Q;
  price_max : option Q;
  price_avg_median : option Q;
  price_low_median : option Q;
  price_high_median : option Q;
  avg_bid_index : option Q;
  unit : option string;
  sample_size : option Q;
  num_reports : option Q;
  volume : option Q;
  program : option string;
  log_rule : option string
}.
End Csv.

(** A parsed file: its header and its rows. *)
Record DataFrame := {
  columns : list string;
  rows : list Csv.Row
}.

(** The files below [BASE_PATH]; [None] when [path.exists()] is false. *)
Definition FileSystem := string -> option DataFrame.

(** What a loader yields: a frame of canonical rows, or [None] when it
    raised (caught by the [try ... except] of [main]). *)
Definition Loaded := option (list CanonicalRecord).

Module Adapters.
Import Py Normalizer.

Definition has_column (df : DataFrame) (col : string) : bool :=
  mem col (columns df).

(** [df.get(col)]: the column, or [None] when the file lacks it. *)
Definition df_get {A} (df : DataFrame) (col : string)
           (proj : Csv.Row -> option A) (r : Csv.Row) : option A :=
  if has_column df col then proj r else None.

(** [pd.DataFrame({...})] over the rows of [df]; reading [df[col]] for a
    column the file lacks raises [KeyError]. *)
Definition build (df : DataFrame) (required : list string)
           (f : Csv.Row -> CanonicalRecord) : Loaded :=
  if forallb (has_column df) required then Some (map f (rows df)) else None.

(** [x == lit] for a possibly missing text cell. *)
Definition opt_eqb (x : option string) (lit : string) : bool :=
  match x with Some s => s =? lit | None => false end.

(** [str(x)] of a text cell; a missing value prints as [nan]. *)
Definition py_str (x : option string) : string :=
  match x with Some s => s | None => "nan" end.

(** [season_to_quarter.get(key)] of [load_new_york]. *)
Definition season_to_quarter (key : string) : option Z :=
  if key =? "winter" then Some 1%Z
  else if key =? "spring" then Some 2%Z
  else if key =? "summer" then Some 3%Z
  else if key =? "fall" then Some 4%Z
  else None.

(** [load_michigan()]: price INDEX data, not actual prices. *)
Definition load_michigan (fs : FileSystem) : Loaded :=
  match fs "mi_dnr/mi_stumpage_parsed.csv" with
  | None => Some []
  | Some df =>
      build df ["year"; "quarter"; "market_area"; "species_group"; "product"; "avg_bid_index"; "volume"]
        (fun r =>
        {|
           source := "MI";
           year := Csv.year r;
           quarter := Csv.quarter r;
           period_type := "quarterly";
           region := Csv.market_area r;
           county := None;
           species := Csv.species_group r;
           product_type := Some (if opt_eqb (Csv.product r) "SAW" then "sawtimber"
                                 else if opt_eqb (Csv.product r) "PULP" then "pulpwood"
                                 else "total_index");
           price_avg := Csv.avg_bid_index r;
           price_low := None;
           price_high := None;
           unit := Some "index";
           price_per_ton := None;
           conversion_factor := None;
           sample_size := Csv.volume r;
           notes := Some "Price index (base=100), not actual price"
        |})
  end.

(** [load_minnesota()]: annual, statewide. *)
Definition load_minnesota (fs : FileSystem) : Loaded :=
  match fs "mn_dnr/mn_stumpage_parsed.csv" with
  | None => Some []
  | Some df =>
      build df ["year"; "species"; "product_type"; "price"; "unit"]
        (fun r =>
        {|
           source := "MN";
           year := Csv.year r;
           quarter := None;
           period_type := "annual";
           region := Some "Statewide";
           county := None;
           species := Csv.species r;
           product_type := standardize_product_type (Csv.product_type r);
           price_avg := Csv.price r;
           price_low := None;
           price_high := None;
           unit := standardize_unit (Csv.unit r);
           price_per_ton := None;
           conversion_factor := None;
           sample_size := None;
           notes := None
        |})
  end.

(** [load_wisconsin()]: annual, by zone, always in cords. *)
Definition load_wisconsin (fs : FileSystem) : Loaded :=
  match fs "wi_dnr/wi_stumpage_parsed.csv" with
  | None => Some []
  | Some df =>
      build df ["year"; "zone"; "species"; "product_type"; "price"; "program"]
        (fun r =>
        {|
           source := "WI";
           year := Csv.year r;
           quarter := None;
           period_type := "annual";
           region := match Csv.zone r with
                     | Some x => if isdigit x then Some ("Zone " ++ x) else Some x
                     | None => None
                     end;
           county := None;
           species := Csv.species r;
           product_type := standardize_product_type (Csv.product_type r);
           price_avg := Csv.price r;
           price_low := None;
           price_high := None;
           unit := Some "$/cord";
           price_per_ton := None;
           conversion_factor := None;
           sample_size := None;
           notes := Some ("Program: " ++ py_str (Csv.program r))
        |})
  end.

(** [load_new_york()]: semi-annual seasons folded into the quarter slot. *)
Definition load_new_york (fs : FileSystem) : Loaded :=
  match fs "ny_dec/ny_stumpage_parsed.csv" with
  | None => Some []
  | Some df =>
      build df ["year"; "season"; "region"; "species"; "product_type"; "price_avg_median"; "price_low_median"; "price_high_median"; "unit"; "log_rule"]
        (fun r =>
        {|
           source := "NY";
           year := Csv.year r;
           quarter := season_to_quarter (lower (py_str (Csv.season r)));
           period_type := "semi-annual";
           region := Csv.region r;
           county := None;
           species := Csv.species r;
           product_type := standardize_product_type (Csv.product_type r);
           price_avg := Csv.price_avg_median r;
           price_low := Csv.price_low_median r;
           price_high := Csv.price_high_median r;
           unit := standardize_unit (Csv.unit r);
           price_per_ton := None;
           conversion_factor := None;
           sample_size := None;
           notes := match Csv.log_rule r with
                    | Some x => Some ("Log rule: " ++ x)
                    | None => None
                    end
        |})
  end.

(** [load_pennsylvania()]: quarterly. *)
Definition load_pennsylvania (fs : FileSystem) : Loaded :=
  match fs "pa_extension/pa_stumpage_parsed.csv" with
  | None => Some []
  | Some df =>
      build df ["year"; "quarter"; "region"; "species"; "product_type"; "price_avg"; "price_low"; "price_high"; "unit"; "sample_size"]
        (fun r =>
        {|
           source := "PA";
           year := Csv.year r;
           quarter := Csv.quarter r;
           period_type := "quarterly";
           region := Csv.region r;
           county := None;
           species := Csv.species r;
           product_type := standardize_product_type (Csv.product_type r);
           price_avg := Csv.price_avg r;
           price_low := Csv.price_low r;
           price_high := Csv.price_high r;
           unit := standardize_unit (Csv.unit r);
           price_per_ton := None;
           conversion_factor := None;
           sample_size := Csv.sample_size r;
           notes := None
        |})
  end.

(** [load_vermont()]: quarterly. *)
Definition load_vermont (fs : FileSystem) : Loaded :=
  match fs "vt_fpr/vt_stumpage_parsed.csv" with
  | None => Some []
  | Some df =>
      build df ["year"; "quarter"; "region"; "species"; "product_type"; "price"; "unit"; "sample_size"]
        (fun r =>
        {|
           source := "VT";
           year := Csv.year r;
           quarter := Csv.quarter r;
           period_type := "quarterly";
           region := Csv.region r;
           county := None;
           species := Csv.species r;
           product_type := standardize_product_type (Csv.product_type r);
           price_avg := Csv.price r;
           price_low := None;
           price_high := None;
           unit := standardize_unit (Csv.unit r);
           price_per_ton := None;
           conversion_factor := None;
           sample_size := Csv.sample_size r;
           notes := None
        |})
  end.

(** [load_maine()]: annual. *)
Definition load_maine (fs : FileSystem) : Loaded :=
  match fs "me_forest_service/me_stumpage_parsed.csv" with
  | None => Some []
  | Some df =>
      build df ["year"; "region"; "species"; "product_type"; "price_avg"; "price_min"; "price_max"; "unit"; "num_reports"]
        (fun r =>
        {|
           source := "ME";
           year := Csv.year r;
           quarter := None;
           period_type := "annual";
           region := Csv.region r;
           county := None;
           species := Csv.species r;
           product_type := standardize_product_type (Csv.product_type r);
           price_avg := Csv.price_avg r;
           price_low := Csv.price_min r;
           price_high := Csv.price_max r;
           unit := standardize_unit (Csv.unit r);
           price_per_ton := None;
           conversion_factor := None;
           sample_size := Csv.num_reports r;
           notes := None
        |})
  end.

(** [load_alabama()]: annual. *)
Definition load_alabama (fs : FileSystem) : Loaded :=
  match fs "al_forestry/al_stumpage_parsed.csv" with
  | None => Some []
  | Some df =>
      build df ["year"; "region"; "species"; "product_type"; "price_avg"; "unit"]
        (fun r =>
        {|
           source := "AL";
           year := Csv.year r;
           quarter := None;
           period_type := "annual";
           region := Csv.region r;
           county := None;
           species := Csv.species r;
           product_type := standardize_product_type (Csv.product_type r);
           price_avg := Csv.price_avg r;
           price_low := df_get df "price_low" Csv.price_low r;
           price_high := df_get df "price_high" Csv.price_high r;
           unit := standardize_unit (Csv.unit r);
           price_per_ton := None;
           conversion_factor := None;
           sample_size := None;
           notes := None
        |})
  end.

(** [load_arkansas()]: quarterly. *)
Definition load_arkansas (fs : FileSystem) : Loaded :=
  match fs "ar_extension/ar_stumpage_parsed.csv" with
  | None => Some []
  | Some df =>
      build df ["year"; "quarter"; "region"; "species"; "product_type"; "price_avg"; "unit"]
        (fun r =>
        {|
           source := "AR";
           year := Csv.year r;
           quarter := Csv.quarter r;
           period_type := "quarterly";
           region := Csv.region r;
           county := None;
           species := Csv.species r;
           product_type := standardize_product_type (Csv.product_type r);
           price_avg := Csv.price_avg r;
           price_low := df_get df "price_low" Csv.price_low r;
           price_high := df_get df "price_high" Csv.price_high r;
           unit := standardize_unit (Csv.unit r);
           price_per_ton := None;
           conversion_factor := None;
           sample_size := None;
           notes := None
        |})
  end.

(** [load_florida()]: quarterly. *)
Definition load_florida (fs : FileSystem) : Loaded :=
  match fs "fl_ifas/fl_stumpage_parsed.csv" with
  | None => Some []
  | Some df =>
      build df ["year"; "quarter"; "region"; "species"; "product_type"; "price_avg"; "unit"]
        (fun r =>
        {|
           source := "FL";
           year := Csv.year r;
           quarter := Csv.quarter r;
           period_type := "quarterly";
           region := Csv.region r;
           county := None;
           species := Csv.species r;
           product_type := standardize_product_type (Csv.product_type r);
           price_avg := Csv.price_avg r;
           price_low := df_get df "price_low" Csv.price_low r;
           price_high := df_get df "price_high" Csv.price_high r;
           unit := standardize_unit (Csv.unit r);
           price_per_ton := None;
           conversion_factor := None;
           sample_size := None;
           notes := None
        |})
  end.

(** [load_georgia()]: county-level data. *)
Definition load_georgia (fs : FileSystem) : Loaded :=
  match fs "ga_dor/ga_stumpage_parsed.csv" with
  | None => Some []
  | Some df =>
      build df ["year"; "county"; "species"; "product_type"; "price_avg"; "unit"]
        (fun r =>
        {|
           source := "GA";
           year := Csv.year r;
           quarter := None;
           period_type := "annual";
           region := Some "Statewide";
           county := Csv.county r;
           species := Csv.species r;
           product_type := standardize_product_type (Csv.product_type r);
           price_avg := Csv.price_avg r;
           price_low := None;
           price_high := None;
           unit := standardize_unit (Csv.unit r);
           price_per_ton := None;
           conversion_factor := None;
           sample_size := None;
           notes := Some "County-level fair market values"
        |})
  end.

(** [load_louisiana()]: quarterly. *)
Definition load_louisiana (fs : FileSystem) : Loaded :=
  match fs "la_forestry/la_stumpage_parsed.csv" with
  | None => Some []
  | Some df =>
      build df ["year"; "quarter"; "region"; "species"; "product_type"; "price"; "unit"]
        (fun r =>
        {|
           source := "LA";
           year := Csv.year r;
           quarter := Csv.quarter r;
           period_type := "quarterly";
           region := Csv.region r;
           county := None;
           species := Csv.species r;
           product_type := standardize_product_type (Csv.product_type r);
           price_avg := Csv.price r;
           price_low := None;
           price_high := None;
           unit := standardize_unit (Csv.unit r);
           price_per_ton := None;
           conversion_factor := None;
           sample_size := None;
           notes := None
        |})
  end.

(** [load_mississippi()]: quarterly. *)
Definition load_mississippi (fs : FileSystem) : Loaded :=
  match fs "ms_extension/ms_stumpage_parsed.csv" with
  | None => Some []
  | Some df =>
      build df ["year"; "quarter"; "region"; "species"; "product_type"; "price_avg"; "unit"]
        (fun r =>
        {|
           source := "MS";
           year := Csv.year r;
           quarter := Csv.quarter r;
           period_type := "quarterly";
           region := Csv.region r;
           county := None;
           species := Csv.species r;
           product_type := standardize_product_type (Csv.product_type r);
           price_avg := Csv.price_avg r;
           price_low := df_get df "price_low" Csv.price_low r;
           price_high := df_get df "price_high" Csv.price_high r;
           unit := standardize_unit (Csv.unit r);
           price_per_ton := None;
           conversion_factor := None;
           sample_size := None;
           notes := None
        |})
  end.

(** [load_south_carolina()]: quarterly. *)
Definition load_south_carolina (fs : FileSystem) : Loaded :=
  match fs "sc_forestry/sc_stumpage_parsed.csv" with
  | None => Some []
  | Some df =>
      build df ["year"; "quarter"; "region"; "species"; "product_type"; "price_avg"; "unit"]
        (fun r =>
        {|
           source := "SC";
           year := Csv.year r;
           quarter := Csv.quarter r;
           period_type := "quarterly";
           region := Csv.region r;
           county := None;
           species := Csv.species r;
           product_type := standardize_product_type (Csv.product_type r);
           price_avg := Csv.price_avg r;
           price_low := df_get df "price_low" Csv.price_low r;
           price_high := df_get df "price_high" Csv.price_high r;
           unit := standardize_unit (Csv.unit r);
           price_per_ton := None;
           conversion_factor := None;
           sample_size := None;
           notes := None
        |})
  end.

(** [load_texas()]: annual; the product column is
    [product_type_normalized] when the file has it. *)
Definition load_texas (fs : FileSystem) : Loaded :=
  match fs "texas_am/tx_stumpage_parsed.csv" with
  | None => Some []
  | Some df =>
      build df (["year"; "region"; "species"] ++
                (if has_column df "product_type_normalized" then [] else ["product_type"]) ++
                ["price_avg"; "unit"])%list
        (fun r =>
        {|
           source := "TX";
           year := Csv.year r;
           quarter := None;
           period_type := "annual";
           region := Csv.region r;
           county := None;
           species := Csv.species r;
           product_type :=
             if has_column df "product_type_normalized"
             then standardize_product_type (Csv.product_type_normalized r)
             else standardize_product_type (Csv.product_type r);
           price_avg := Csv.price_avg r;
           price_low := None;
           price_high := None;
           unit := standardize_unit (Csv.unit r);
           price_per_ton := None;
           conversion_factor := None;
           sample_size := None;
           notes := None
        |})
  end.

(** [load_west_virginia()]: annual. *)
Definition load_west_virginia (fs : FileSystem) : Loaded :=
  match fs "wv_forestry/wv_stumpage_parsed.csv" with
  | None => Some []
  | Some df =>
      build df ["year"; "region"; "species"; "product_type"; "price_avg"; "unit"]
        (fun r =>
        {|
           source := "WV";
           year := Csv.year r;
           quarter := None;
           period_type := "annual";
           region := Csv.region r;
           county := None;
           species := Csv.species r;
           product_type := standardize_product_type (Csv.product_type r);
           price_avg := Csv.price_avg r;
           price_low := df_get df "price_low" Csv.price_low r;
           price_high := df_get df "price_high" Csv.price_high r;
           unit := standardize_unit (Csv.unit r);
           price_per_ton := None;
           conversion_factor := None;
           sample_size := df_get df "num_reports" Csv.num_reports r;
           notes := None
        |})
  end.

(** The list [loaders] of [main], in source order. *)
Definition loaders : list (string * (FileSystem -> Loaded)) :=
  [ ("Michigan", load_michigan);
    ("Minnesota", load_minnesota);
    ("Wisconsin", load_wisconsin);
    ("New York", load_new_york);
    ("Pennsylvania", load_pennsylvania);
    ("Vermont", load_vermont);
    ("Maine", load_maine);
    ("Alabama", load_alabama);
    ("Arkansas", load_arkansas);
    ("Florida", load_florida);
    ("Georgia", load_georgia);
    ("Louisiana", load_louisiana);
    ("Mississippi", load_mississippi);
    ("South Carolina", load_south_carolina);
    ("Texas", load_texas);
    ("West Virginia", load_west_virginia) ].

End Adapters.

Module Engine.
Import Adapters.

(** The loading loop of [main]: [all_data] after the loaders have run.
    A loader that raised, or whose frame is empty, contributes nothing. *)
Definition load_all (fs : FileSystem) : list (list CanonicalRecord) :=
  fold_left
    (fun all_data loader =>
       match snd loader fs with
       | Some [] => all_data
       | Some df => (all_data ++ [df])%list
       | None => all_data
       end)
    loaders [].

(** [main()]: the rows written to [stumpage_unified.csv].  [pd.concat]
    raises on an empty list, in which case nothing is written ([None]). *)
Definition main (fs : FileSystem) : option (list CanonicalRecord) :=
  match load_all fs with
  | [] => None
  | all_data =>
      let combined := List.concat all_data in
      (* combined['conversion_factor'] = combined.apply(get_conversion_factor, axis=1) *)
      let combined :=
        map (fun row => set_conversion_factor row (Converter.get_conversion_factor row))
            combined in
      (* combined['price_per_ton'] = combined.apply(lambda r: convert_price(r, 'price_avg'), axis=1) *)
      let combined :=
        map (fun row => set_price_per_ton row (Converter.convert_price row price_avg))
            combined in
      Some combined
  end.

End Engine.

(* ================================================================== *)
(** ** Table row classifier ([parse_nh_stumpage.py]) *)
(* ================================================================== *)

(** The value of a Python [float]: a finite number, an infinity or NaN.
    Rounding to binary64 and overflow of huge exponents are not modelled. *)
Inductive pyfloat :=
| Finite (q : Q)
| Infinity (negative : bool)
| NaN.

Module PyFloat.
Import Py.

Definition digit_value (c : ascii) : Z := Z.of_nat (nat_of_ascii c - 48).

(** The rest of a [digitpart] after its first digit: digits, each
    optionally preceded by one underscore.  Returns the accumulated
    value, the number of digits read and the unread text. *)
Fixpoint digits_loop (acc : Z) (n : nat) (s : string) : Z * nat * string :=
  match s with
  | String c t =>
      if is_digit c then digits_loop (acc * 10 + digit_value c) (S n) t
      else if Ascii.eqb c "_" then
        match t with
        | String d t' =>
            if is_digit d then digits_loop (acc * 10 + digit_value d) (S n) t'
            else (acc, n, s)
        | EmptyString => (acc, n, s)
        end
      else (acc, n, s)
  | EmptyString => (acc, n, s)
  end.

(** An optional [digitpart]: value, number of digits (0 when absent), rest. *)
Definition digitpart (s : string) : Z * nat * string :=
  match s with
  | String c t => if is_digit c then digits_loop (digit_value c) 1 t else (0%Z, O, s)
  | EmptyString => (0%Z, O, s)
  end.

Definition pow10 (n : nat) : Z := Z.pow 10 (Z.of_nat n).

(** [("e" | "E") [sign] digitpart], or nothing.  [None] when an exponent
    marker is not followed by digits. *)
Definition exponent (s : string) : option (Z * string) :=
  match s with
  | String c t =>
      if Ascii.eqb c "e" || Ascii.eqb c "E" then
        let '(neg, t) :=
          match t with
          | String "+" u => (false, u)
          | String "-" u => (true, u)
          | _ => (false, t)
          end in
        let '(e, n, rest) := digitpart t in
        match n with
        | O => None
        | _ => Some (if neg then (- e)%Z else e, rest)
        end
      else Some (0%Z, s)
  | EmptyString => Some (0%Z, s)
  end.

(** [floatnumber]: [[digitpart] "." digitpart | digitpart ["."]] followed
    by an optional exponent, covering the whole text. *)
Definition floatnumber (s : string) : option Q :=
  let '(ip, ni, rest) := digitpart s in
  let '(fp, nf, rest) :=
    match rest with
    | String "." t => digitpart t
    | _ => (0%Z, O, rest)
    end in
  match (ni + nf)%nat with
  | O => None
  | _ =>
      match exponent rest with
      | Some (e, EmptyString) =>
          let mantissa := Qmake (ip * pow10 nf + fp) (Z.to_pos (pow10 nf)) in
          Some (if (e <? 0)%Z
                then mantissa / inject_Z (pow10 (Z.to_nat (- e)))
                else mantissa * inject_Z (pow10 (Z.to_nat e)))
      | _ => None
      end
  end.

(** [float(s)] for a string: [None] stands for [ValueError]. *)
Definition float (s : string) : option pyfloat :=
  let s := strip s in
  let '(neg, body) :=
    match s with
    | String "+" t => (false, t)
    | String "-" t => (true, t)
    | _ => (false, s)
    end in
  let word := lower body in
  if (word =? "inf") || (word =? "infinity") then Some (Infinity neg)
  else if word =? "nan" then Some NaN
  else
    match floatnumber body with
    | Some q => Some (Finite (if neg then - q else q))
    | None => None
    end.

End PyFloat.

Module NH.
Import Py.

(** [parse_period_from_filename]'s result. *)
Record PeriodInfo := {
  start_month : string;
  start_year : string;
  end_month : string;
  end_year : string
}.

(** Two digits at the head of [s], then the rest ([(\d{2})]). *)
Definition two_digits (s : string) : option (string * string) :=
  match s with
  | String a (String b rest) =>
      if is_digit a && is_digit b
      then Some (String a (String b EmptyString), rest)
      else None
  | _ => None
  end.

(** [s] starts with [p]: the text after [p]. *)
Fixpoint after_prefix (p s : string) : option string :=
  match p, s with
  | EmptyString, _ => Some s
  | String a p', String b s' => if Ascii.eqb a b then after_prefix p' s' else None
  | _, EmptyString => None
  end.

(** [re.match(r'avg-stump-val-(\d{2})-(\d{2})-(\d{2})-(\d{2})\.pdf', filename)]. *)
Definition parse_period_from_filename (filename : string) : option PeriodInfo :=
  match after_prefix "avg-stump-val-" filename with
  | None => None
  | Some s =>
  match two_digits s with
  | None => None
  | Some (sm, s) =>
  match after_prefix "-" s with
  | None => None
  | Some s =>
  match two_digits s with
  | None => None
  | Some (sy, s) =>
  match after_prefix "-" s with
  | None => None
  | Some s =>
  match two_digits s with
  | None => None
  | Some (em, s) =>
  match after_prefix "-" s with
  | None => None
  | Some s =>
  match two_digits s with
  | None => None
  | Some (ey, s) =>
  match after_prefix ".pdf" s with
  | None => None
  | Some _ =>
      Some {| start_month := sm; start_year := "20" ++ sy;
              end_month := em; end_year := "20" ++ ey |}
  end end end end end end end end end.

(** [int(start_month)] for the two-digit month text. *)
Definition month_int (start_month : string) : Z :=
  match PyFloat.digitpart start_month with
  | (v, _, _) => v
  end.

(** [determine_period]. *)
Definition determine_period (start_month : string) : string :=
  let month_int := month_int start_month in
  if (4 <=? month_int)%Z && (month_int <=? 9)%Z then "Spring" else "Fall".

(** [clean_price_value]. *)
Definition clean_price_value (value : string) : option pyfloat :=
  if (value =? "") || (strip value =? "") then None
  else
    let cleaned := strip (replace_char "," "" (replace_char "$" "" value)) in
    PyFloat.float cleaned.

(** A table row as [pdfplumber] extracts it: cells are text or [None]. *)
Definition TableRow := list (option string).

(** One extracted price observation (the dict [record]). *)
Record Record_ := {
  year : string;
  period : string;
  period_dates : string;
  region : string;
  species : string;
  product_type : string;
  price_low : option pyfloat;
  price_high : option pyfloat;
  unit : string
}.

(** What the row loop reads from its surroundings. *)
Record Context := {
  ctx_year : string;
  ctx_period : string;
  ctx_period_dates : string;
  current_region : option string
}.

(** [row[i]] (the index is in range wherever it is used). *)
Definition cell (row : TableRow) (i : nat) : option string := nth i row None.

(** [str(c).strip() if c else '']. *)
Definition strip_or_empty (c : option string) : string :=
  match c with
  | Some s => if truthy c then strip s else ""
  | None => ""
  end.

(** [clean_price_value(str(c)) if c else None]. *)
Definition price_of (c : option string) : option pyfloat :=
  match c with
  | Some s => if truthy c then clean_price_value s else None
  | None => None
  end.

(** A cell holding one of the header keywords. *)
Definition header_cell (c : option string) : bool :=
  match c with
  | Some s =>
      truthy c &&
      (contains "SPECIES" (upper s) || contains "PRODUCT" (upper s)
       || contains "LOW" (upper s) || contains "HIGH" (upper s))
  | None => false
  end.

(** [row and any(cell and (...) for cell in row)]. *)
Definition is_header_row (row : TableRow) : bool := existsb header_cell row.

(** The rows after the first header row ([table[header_row_idx + 1:]]),
    or [None] when [header_row_idx] stays [None]. *)
Fixpoint rows_after_header (table : list TableRow) : option (list TableRow) :=
  match table with
  | [] => None
  | row :: rest => if is_header_row row then Some rest else rows_after_header rest
  end.

(** [all(not cell or str(cell).strip() == '' for cell in row)]. *)
Definition blank_cell (c : option string) : bool :=
  match c with
  | Some s => negb (truthy c) || (strip s =? "")
  | None => true
  end.

Definition reject_keywords : list string :=
  ["SPECIES"; "PRODUCT"; "AVERAGE"; "RANGE"; "NORTHERN"; "CENTRAL"; "SOUTHERN"; "TYPE"].

(** The body of the data row loop: [None] for [continue], [Some record]
    for [records.append(record)]. *)
Definition classify_row (ctx : Context) (row : TableRow) : option Record_ :=
  if (List.length row <? 3)%nat then None
  else if negb (existsb truthy row) || forallb blank_cell row then None
  else
    let species := strip_or_empty (cell row 0) in
    if existsb (fun keyword => contains keyword (upper species)) reject_keywords then None
    else if species =? "" then None
    else
      let '(product_type, price_low, price_high, unit) :=
        if (5 <=? List.length row)%nat then
          (strip_or_empty (cell row 1), price_of (cell row 2), price_of (cell row 3),
           strip_or_empty (cell row 4))
        else if (4 <=? List.length row)%nat then
          ("", price_of (cell row 1), price_of (cell row 2), strip_or_empty (cell row 3))
        else if (3 <=? List.length row)%nat then
          ("", price_of (cell row 1), price_of (cell row 2), "")
        else ("", None, None, "") in
      match price_low, price_high with
      | None, None => None
      | _, _ =>
          Some {| year := ctx_year ctx;
                  period := ctx_period ctx;
                  period_dates := ctx_period_dates ctx;
                  region := match current_region ctx with
                            | Some r => if r =? "" then "Unknown" else r
                            | None => "Unknown"
                            end;
                  species := species;
                  product_type := product_type;
                  price_low := price_low;
                  price_high := price_high;
                  unit := unit |}
      end.

(** The records appended while the rows of a list are visited in order. *)
Fixpoint classify_rows (ctx : Context) (rows : list TableRow) : list Record_ :=
  match rows with
  | [] => []
  | row :: rest =>
      match classify_row ctx row with
      | Some record => record :: classify_rows ctx rest
      | None => classify_rows ctx rest
      end
  end.

(** The body of [for table in tables]: the records one table adds. *)
Definition process_table (ctx : Context) (table : list TableRow) : list Record_ :=
  if (List.length table <? 2)%nat then []
  else
    match rows_after_header table with
    | None => []
    | Some rows => classify_rows ctx rows
    end.

(** A page: [page.extract_text()] and [page.extract_tables()]. *)
Record Page := {
  text : option string;
  tables : list (list TableRow)
}.

(** The region named by the page text; later keywords override. *)
Definition region_of_text (text : string) : option string :=
  let text_upper := upper text in
  let current_region := None in
  let current_region :=
    if contains "NORTHERN" text_upper then Some "Northern" else current_region in
  let current_region :=
    if contains "CENTRAL" text_upper then Some "Central" else current_region in
  let current_region :=
    if contains "SOUTHERN" text_upper then Some "Southern" else current_region in
  current_region.

(** The records of one page; a page without text is skipped. *)
Definition process_page (info : PeriodInfo) (page : Page) : list Record_ :=
  match text page with
  | None | Some EmptyString => []
  | Some text =>
      let ctx :=
        {| ctx_year := start_year info;
           ctx_period := determine_period (start_month info);
           ctx_period_dates :=
             start_month info ++ "/" ++ start_year info ++ "-" ++
             end_month info ++ "/" ++ end_year info;
           current_region := region_of_text text |} in
      flat_map (process_table ctx) (tables page)
  end.

(** [parse_stumpage_pdf]: [filename] is [pdf_path.name], [pages] what
    [pdfplumber] reads from the file. *)
Definition parse_stumpage_pdf (filename : string) (pages : list Page) : list Record_ :=
  let period_info :=
    match parse_period_from_filename filename with
    | Some info => info
    | None => {| start_month := "00"; start_year := "2024";
                 end_month := "00"; end_year := "2024" |}
    end in
  flat_map (process_page period_info) pages.

End NH.

(* ================================================================== *)
(** ** Merge of the USFS PNW rows ([integrate_usfs_pnw.py], lines 220-227) *)
(* ================================================================== *)

Module PNW.

Definition opt_eqb {A} (eqb : A -> A -> bool) (x y : option A) : bool :=
  match x, y with
  | Some a, Some b => eqb a b
  | None, None => true
  | _, _ => false
  end.

(** The columns of [subset=["source", "year", "species", "region"]]. *)
Definition Key : Type := string * option Z * option string * option string.

Definition subset_key (row : CanonicalRecord) : Key :=
  (source row, year row, species row, region row).

Definition key_eqb (a b : Key) : bool :=
  match a, b with
  | (s1, y1, sp1, r1), (s2, y2, sp2, r2) =>
      (s1 =? s2) && opt_eqb Z.eqb y1 y2 && opt_eqb String.eqb sp1 sp2
      && opt_eqb String.eqb r1 r2
  end.

(** [df.drop_duplicates(subset=..., keep="last")]: a row stays when no
    later row has its key; the order of the rows kept is unchanged. *)
Fixpoint drop_duplicates_last (df : list CanonicalRecord) : list CanonicalRecord :=
  match df with
  | [] => []
  | row :: rest =>
      if existsb (fun later => key_eqb (subset_key row) (subset_key later)) rest
      then drop_duplicates_last rest
      else row :: drop_duplicates_last rest
  end.

(** [usfs_pnw_unified] of [main]: the concatenation of the two transformed
    frames, de-duplicated (prefer species-specific over combined). *)
Definition usfs_pnw_unified (combined_unified species_unified : list CanonicalRecord)
  : list CanonicalRecord :=
  drop_duplicates_last (combined_unified ++ species_unified)%list.

End PNW.

(* ================================================================== *)
(** ** Direct price conversion ([unit_conversion_factors.py], lines 293-329) *)
(* ================================================================== *)

Module RegistryConv.
Import Py.

(** What the factor functions read of their [species] argument:
    [str(species) ... if species else '']. *)
Definition species_text (species : option string) : string :=
  match species with Some s => s | None => "" end.

(** [convert_to_per_ton(price, unit, species, product_type)]. *)
Definition convert_to_per_ton (price : option Q)
           (unit species product_type : option string) : option Q :=
  match price with
  | None => None
  | Some price =>
      let unit_lower := match unit with Some u => lower u | None => "" end in
      (* Already in $/ton *)
      if contains "ton" unit_lower then Some price
      (* Convert from $/cord *)
      else if contains "cord" unit_lower then
        let factor := Registry.get_cord_to_ton_factor (species_text species) product_type in
        Some (price / factor)
      (* Convert from $/mbf *)
      else if contains "mbf" unit_lower then
        let factor := Registry.get_mbf_to_ton_factor (species_text species) product_type in
        Some (price / factor)
      (* Index values cannot be converted to actual prices *)
      else if contains "index" unit_lower then None
      else None
  end.

End RegistryConv.

(* ================================================================== *)
(** ** USFS PNW transforms and integration ([integrate_usfs_pnw.py]) *)
(* ================================================================== *)

Module PNWTransform.
Import Py.

(** A row of [usfs_pnw_stumpage_combined.csv] or
    [usfs_pnw_species_stumpage.csv]. *)
Record RawRow := {
  raw_year : option Z;
  raw_region : option string;
  raw_subregion : option string;
  raw_species : option string;
  raw_price_per_mbf : option Q;
  raw_table : option string
}.

(** A raw file: which of the optional columns it has, and its rows. *)
Record RawFrame := {
  has_subregion : bool;
  has_table : bool;
  raw_rows : list RawRow
}.

Definition REGION_TO_STATES : list (string * list string) :=
  [ ("Montana_Idaho", ["MT"; "ID"]);
    ("Washington_Oregon", ["WA"; "OR"]);
    ("California", ["CA"]);
    ("Alaska", ["AK"]);
    ("Northern_Region_MT_ID", ["MT"; "ID"]) ].

Definition SUBREGION_TO_STATE : list (string * string) :=
  [ ("Montana", "MT");
    ("Idaho", "ID");
    ("Washington", "WA");
    ("Oregon", "OR");
    ("California", "CA");
    ("Alaska", "AK");
    ("Montana_Idaho", "MT_ID");
    ("Washington_Oregon", "WA_OR");
    ("Northern_Region_MT_ID", "MT_ID");
    ("Intermountain_Region", "ID");
    ("Pacific_Northwest_WA_OR", "WA_OR");
    ("Pacific_Southwest_CA", "CA") ].

Definition SPECIES_MAP : list (string * string) :=
  [ ("Douglas-fir", "douglas_fir");
    ("Ponderosa pine", "ponderosa_pine");
    ("Western white pine", "white_pine");
    ("Lodgepole pine", "lodgepole_pine");
    ("Engelmann spruce", "engelmann_spruce");
    ("Western hemlock", "western_hemlock");
    ("Cedars", "cedar");
    ("Larch", "western_larch");
    ("True firs", "true_fir");
    ("All species", "all_species");
    ("Western redcedar", "western_redcedar");
    ("Sitka spruce", "sitka_spruce");
    ("Red alder", "red_alder");
    ("Other hardwoods", "hardwood_other");
    ("Other softwoods", "softwood_other") ].

Definition MBF_TO_TONS : Q := 4.0.

(** [d.get(key)] of a dict with text keys. *)
Fixpoint dict_get {V} (d : list (string * V)) (key : string) : option V :=
  match d with
  | [] => None
  | (k, v) :: rest => if k =? key then Some v else dict_get rest key
  end.

(** [key in d] for a possibly missing key (a missing value is in no dict). *)
Definition dict_has {V} (d : list (string * V)) (key : option string) : bool :=
  match key with
  | Some k => match dict_get d k with Some _ => true | None => false end
  | None => false
  end.

(** ["_".join(states)]. *)
Fixpoint join (sep : string) (l : list string) : string :=
  match l with
  | [] => ""
  | [x] => x
  | x :: rest => x ++ sep ++ join sep rest
  end.

(** [a != b] on cells: a missing value differs from everything. *)
Definition cell_ne (a b : option string) : bool :=
  match a, b with
  | Some x, Some y => negb (x =? y)
  | _, _ => true
  end.

(** [str(x)] of a text cell; a missing value prints as [nan]. *)
Definition cell_str (x : option string) : string :=
  match x with Some s => s | None => "nan" end.

(** The f-string of the [notes] column. *)
Definition usfs_notes (table : option string) : string :=
  "USFS PNW National Forest stumpage. " ++ cell_str table ++
  ". Administered pricing, not market.".

(** The outcome of one pass of a transform loop. *)
Inductive Step :=
| Skip                          (* [continue] *)
| Raise                         (* an exception leaves the function *)
| Append (row : CanonicalRecord).

Section WithRound.

(** Python's [round(x, 2)], whose result depends on the binary value of
    the float. *)
Variable round2 : Q -> Q.

(** The dict appended by both transforms. *)
Definition usfs_row (state : string) (year : Z) (region : option string)
           (species : string) (price_mbf : Q) (table : option string) : CanonicalRecord :=
  {| source := state;
     year := Some year;
     quarter := None;
     period_type := "annual";
     region := region;
     county := None;
     species := Some species;
     product_type := Some "sawtimber";
     price_avg := Some price_mbf;
     price_low := None;
     price_high := None;
     unit := Some "$/MBF";
     price_per_ton := Some (round2 (price_mbf / MBF_TO_TONS));
     conversion_factor := Some MBF_TO_TONS;
     sample_size := None;
     notes := Some (usfs_notes table) |}.

(** The body of the loop of [transform_combined]. *)
Definition combined_step (df : RawFrame) (row : RawRow) : Step :=
  let year := raw_year row in
  let region := raw_region row in
  let subregion := if has_subregion df then raw_subregion row else region in
  let table := if has_table df then raw_table row else Some "" in
  match raw_price_per_mbf row with
  | None => Skip
  | Some price_mbf =>
      let state :=
        if dict_has SUBREGION_TO_STATE subregion then
          dict_get SUBREGION_TO_STATE (cell_str subregion)
        else if dict_has SUBREGION_TO_STATE region then
          dict_get SUBREGION_TO_STATE (cell_str region)
        else
          (* region.replace("_", "-"): AttributeError on a missing value *)
          match region with
          | Some r => Some (replace_char "_" "-" r)
          | None => None
          end in
      match state, year with
      | Some state, Some year =>
          Append (usfs_row state year
                    (if cell_ne subregion region then subregion else Some "Statewide")
                    "all_species" price_mbf table)
      | _, _ => Raise   (* also int(year) of a missing year *)
      end
  end.

(** The body of the loop of [transform_species]. *)
Definition species_step (df : RawFrame) (row : RawRow) : Step :=
  let year := raw_year row in
  let region := raw_region row in
  let species_raw := raw_species row in
  let table := if has_table df then raw_table row else Some "" in
  match raw_price_per_mbf row with
  | None => Skip
  | Some price_mbf =>
      (* SPECIES_MAP.get(species_raw, species_raw.lower().replace(" ", "_")):
         the default is evaluated first and raises on a missing value *)
      match species_raw with
      | None => Raise
      | Some raw =>
          let species :=
            match dict_get SPECIES_MAP raw with
            | Some name => name
            | None => replace_char " " "_" (lower raw)
            end in
          let state :=
            if dict_has SUBREGION_TO_STATE region then
              dict_get SUBREGION_TO_STATE (cell_str region)
            else if dict_has REGION_TO_STATES region then
              match dict_get REGION_TO_STATES (cell_str region) with
              | Some states => Some (join "_" states)
              | None => None
              end
            else
              match region with
              | Some r => Some (replace_char "_" "-" r)
              | None => None
              end in
          match state, year, region with
          | Some state, Some year, Some r =>
              Append (usfs_row state year (Some (replace_char "_" " " r))
                        species price_mbf table)
          | _, _, _ => Raise
          end
      end
  end.

(** [for _, row in df.iterrows(): ...; return pd.DataFrame(rows)]:
    [None] when a pass raised. *)
Fixpoint run_steps (step : RawRow -> Step) (rows : list RawRow)
  : option (list CanonicalRecord) :=
  match rows with
  | [] => Some []
  | row :: rest =>
      match step row with
      | Raise => None
      | Skip => run_steps step rest
      | Append r =>
          match run_steps step rest with
          | Some out => Some (r :: out)
          | None => None
          end
      end
  end.

Definition transform_combined (df : RawFrame) : option (list CanonicalRecord) :=
  run_steps (combined_step df) (raw_rows df).

Definition transform_species (df : RawFrame) : option (list CanonicalRecord) :=
  run_steps (species_step df) (raw_rows df).

(** [notes.str.contains("USFS PNW", na=False)]. *)
Definition is_usfs_row (r : CanonicalRecord) : bool :=
  match notes r with
  | Some n => contains "USFS PNW" n
  | None => false
  end.

(** The [notes] column of a table read back from CSV holds no text at
    all: it is then a column of floats, on which [.str] raises. *)
Definition notes_without_text (df : list CanonicalRecord) : bool :=
  match df with
  | [] => false
  | _ => forallb (fun r => match notes r with None => true | Some _ => false end) df
  end.

(** [main()] up to the final [sort_values]: the rows of [unified_df],
    given the existing unified table and the two raw files.  [None] when a
    transform raised, when no row was transformed (the summary then reads
    the column [year] of a frame without columns), or when the existing
    table has rows but no text in [notes]. *)
Definition integrate (existing_df : list CanonicalRecord)
           (combined_df species_df : RawFrame) : option (list CanonicalRecord) :=
  match transform_combined combined_df, transform_species species_df with
  | Some combined_unified, Some species_unified =>
      match PNW.usfs_pnw_unified combined_unified species_unified with
      | [] => None
      | usfs_pnw_unified =>
          if notes_without_text existing_df then None
          else
            let existing_df := filter (fun r => negb (is_usfs_row r)) existing_df in
            Some (existing_df ++ usfs_pnw_unified)%list
      end
  | _, _ => None
  end.

End WithRound.

End PNWTransform.

(* ================================================================== *)
(** ** Tennessee merge policy ([integrate_tn_forestry.py], lines 115-139) *)
(* ================================================================== *)

Module TN.

Definition is_tn (r : CanonicalRecord) : bool := source r =? "TN".

(** [row['year'].isin(frame['year'])]. *)
Definition year_isin (r : CanonicalRecord) (frame : list CanonicalRecord) : bool :=
  existsb (fun e => PNW.opt_eqb Z.eqb (year r) (year e)) frame.

(** The merge step of [main()], up to the final [sort_values]: the rows
    kept of the existing table and the rows added from [tn_unified]. *)
Definition merge (existing_df tn_unified : list CanonicalRecord)
  : list CanonicalRecord * list CanonicalRecord :=
  let existing_tn := filter is_tn existing_df in
  match existing_tn with
  | [] => (existing_df, tn_unified)
  | _ =>
      (* Only add new years that don't overlap *)
      let new_years := filter (fun r => negb (year_isin r existing_tn)) tn_unified in
      match new_years with
      | [] =>
          (* Replace TN data with new aggregated data *)
          (filter (fun r => negb (is_tn r)) existing_df, tn_unified)
      | _ => (existing_df, new_years)
      end
  end.

(** [pd.concat([existing_df, tn_unified])]. *)
Definition unified_df (existing_df tn_unified : list CanonicalRecord)
  : list CanonicalRecord :=
  (fst (merge existing_df tn_unified) ++ snd (merge existing_df tn_unified))%list.

End TN.

(* ================================================================== *)
(** ** Vocabulary of the statements *)
(* ================================================================== *)

(** The uniqueness key of the unified table. *)
Definition DedupKey : Type :=
  string * option Z * option Z * option string * option string * option string.

Definition dedup_key (r : CanonicalRecord) : DedupKey :=
  (source r, year r, quarter r, region r, species r, product_type r).

Definition non_null {A} (x : option A) : nat :=
  match x with Some _ => 1 | None => 0 end.

(** Count of the non-null price fields of a record. *)
Definition price_field_count (r : CanonicalRecord) : nat :=
  non_null (price_avg r) + non_null (price_low r) + non_null (price_high r).

(** The values the adapters put in the [unit] column: a constant of the
    loader (['index'], ['$/cord']) or a result of [standardize_unit]. *)
Definition adapter_unit (u : option string) : Prop :=
  u = Some "index" \/ u = Some "$/cord" \/ exists x, u = Normalizer.standardize_unit x.

(** What every row of an adapter frame satisfies. *)
Definition adapter_row (r : CanonicalRecord) : Prop :=
  adapter_unit (unit r) /\ (source r = "MI" -> unit r = Some "index").

Module NormalizerSpec.

(** The canonical product names [standardize_product_type] can return. *)
Definition canonical_products : list string :=
  ["sawtimber_large"; "sawtimber_small"; "sawtimber"; "pulpwood"; "chip-n-saw";
   "veneer"; "poles"; "firewood"; "fiber_fuel"; "biomass"; "boltwood"; "studwood";
   "cordwood"; "posts"; "crossties"; "plylogs"; "topwood"; "fuelchips"; "total_index"].

End NormalizerSpec.

Module PySpec.
Import Py.

(** A text whose first character, if any, is not white space. *)
Definition head_ok (s : string) : Prop :=
  match s with
  | EmptyString => True
  | String c _ => is_space c = false
  end.

End PySpec.

Module NHSpec.
Import Py NH.

(** A row that reaches the arity dispatch of the row loop: none of the
    four [continue] guards before it fires. *)
Definition data_row (row : TableRow) : bool :=
  negb (List.length row <? 3)%nat
  && negb (negb (existsb truthy row) || forallb blank_cell row)
  && negb (existsb (fun keyword => contains keyword (upper (strip_or_empty (cell row 0))))
                   reject_keywords)
  && negb (strip_or_empty (cell row 0) =? "").

(** Positions of the low and high price cells for the row's arity. *)
Definition low_index (row : TableRow) : nat :=
  if (5 <=? List.length row)%nat then 2%nat else 1%nat.

Definition high_index (row : TableRow) : nat :=
  if (5 <=? List.length row)%nat then 3%nat else 2%nat.

(** The record kept for a row that reaches the arity dispatch. *)
Definition record_of (ctx : Context) (row : TableRow) : Record_ :=
  {| year := ctx_year ctx;
     period := ctx_period ctx;
     period_dates := ctx_period_dates ctx;
     region := match current_region ctx with
               | Some r => if r =? "" then "Unknown" else r
               | None => "Unknown"
               end;
     species := strip_or_empty (cell row 0);
     product_type :=
       if (5 <=? List.length row)%nat then strip_or_empty (cell row 1) else "";
     price_low := price_of (cell row (low_index row));
     price_high := price_of (cell row (high_index row));
     unit :=
       if (5 <=? List.length row)%nat then strip_or_empty (cell row 4)
       else if (4 <=? List.length row)%nat then strip_or_empty (cell row 3)
       else "" |}.

(** No cell of the table holds a header keyword. *)
Definition no_header_keyword (table : list TableRow) : Prop :=
  forall row c, In row table -> In c row -> header_cell c = false.

End NHSpec.

(* ================================================================== *)
(** ** Further vocabulary: the shape of adapter rows *)
(* ================================================================== *)

Module Shape.
Import Py.

(** A text in the normal form of the normaliser: lower-case, trimmed. *)
Definition normal_text (t : option string) : Prop :=
  match t with
  | Some s => strip (lower s) = s
  | None => True
  end.

(** The source code of each adapter with its reporting period. *)
Definition source_periods : list (string * string) :=
  [ ("MI", "quarterly"); ("MN", "annual"); ("WI", "annual"); ("NY", "semi-annual");
    ("PA", "quarterly"); ("VT", "quarterly"); ("ME", "annual"); ("AL", "annual");
    ("AR", "quarterly"); ("FL", "quarterly"); ("GA", "annual"); ("LA", "quarterly");
    ("MS", "quarterly"); ("SC", "quarterly"); ("TX", "annual"); ("WV", "annual") ].

(** Sources whose adapter never fills the price range. *)
Definition sources_without_range : list string :=
  ["MI"; "MN"; "WI"; "VT"; "GA"; "LA"; "TX"].

(** What the constants of the adapters fix in every row they build. *)
Definition adapter_constants (r : CanonicalRecord) : Prop :=
  In (source r, period_type r) source_periods /\
  (period_type r = "annual" -> quarter r = None) /\
  (source r = "NY" -> In (quarter r) [None; Some 1%Z; Some 2%Z; Some 3%Z; Some 4%Z]) /\
  (county r <> None -> source r = "GA") /\
  (In (source r) sources_without_range -> price_low r = None /\ price_high r = None) /\
  (In (source r) ["MN"; "GA"] -> region r = Some "Statewide") /\
  (source r = "WI" -> unit r = Some "$/cord") /\
  price_per_ton r = None /\ conversion_factor r = None.

(** The text columns of a row are in normal form. *)
Definition normal_columns (r : CanonicalRecord) : Prop :=
  normal_text (unit r) /\ normal_text (product_type r).

(** The rows a loader yields; none when it raised. *)
Definition rows_of (l : Loaded) : list CanonicalRecord :=
  match l with Some df => df | None => [] end.

(** The adapters with the source code they write. *)
Definition loader_codes : list (string * (FileSystem -> Loaded)) :=
  [ ("MI", Adapters.load_michigan); ("MN", Adapters.load_minnesota);
    ("WI", Adapters.load_wisconsin); ("NY", Adapters.load_new_york);
    ("PA", Adapters.load_pennsylvania); ("VT", Adapters.load_vermont);
    ("ME", Adapters.load_maine); ("AL", Adapters.load_alabama);
    ("AR", Adapters.load_arkansas); ("FL", Adapters.load_florida);
    ("GA", Adapters.load_georgia); ("LA", Adapters.load_louisiana);
    ("MS", Adapters.load_mississippi); ("SC", Adapters.load_south_carolina);
    ("TX", Adapters.load_texas); ("WV", Adapters.load_west_virginia) ].

End Shape.

Module IntegrationSpec.
Import Py PNWTransform.

(** What both transforms put in every row. *)
Definition usfs_shape (round2 : Q -> Q) (r : CanonicalRecord) : Prop :=
  unit r = Some "$/MBF" /\ conversion_factor r = Some 4.0 /\
  product_type r = Some "sawtimber" /\ quarter r = None /\
  period_type r = "annual" /\ price_low r = None /\ price_high r = None /\
  (exists p, price_avg r = Some p /\ price_per_ton r = Some (round2 (p / 4.0))) /\
  year r <> None /\ is_usfs_row r = true.

End IntegrationSpec.

Module NHSpec2.
Import Py NH.

(** The context of the rows of a page with text [text]. *)
Definition page_context (info : PeriodInfo) (text : string) : Context :=
  {| ctx_year := start_year info;
     ctx_period := determine_period (start_month info);
     ctx_period_dates :=
       start_month info ++ "/" ++ start_year info ++ "-" ++
       end_month info ++ "/" ++ end_year info;
     current_region := region_of_text text |}.

(** The period a file name stands for, with the fallback of
    [parse_stumpage_pdf]. *)
Definition period_info_of (filename : string) : PeriodInfo :=
  match parse_period_from_filename filename with
  | Some info => info
  | None => {| start_month := "00"; start_year := "2024";
               end_month := "00"; end_year := "2024" |}
  end.

(** The text is made of white space only. *)
Fixpoint all_space (s : string) : bool :=
  match s with
  | EmptyString => true
  | String c t => is_space c && all_space t
  end.

(** A text of two digits. *)
Definition two_digit_text (s : string) : Prop :=
  exists a b, s = String a (String b EmptyString) /\ is_digit a = true /\ is_digit b = true.

End NHSpec2.

Module NHSpec3.
Import Py NH.








End NHSpec3.

Module IntegrationSpec2.
Import PNWTransform.

(** The raw row has a price. *)
Definition priced (row : RawRow) : bool :=
  match raw_price_per_mbf row with Some _ => true | None => false end.

End IntegrationSpec2.

(* ================================================================== *)
(** ** Concrete inputs used by the examples *)
(* ================================================================== *)

Module Samples.

(** A parsed CSV row with the given year, quarter, area, species, product,
    unit and prices; the synonymous columns of the various files carry
    the same value, the remaining ones are empty. *)
Definition csv_row (y q : option Z) (area sp prod u : option string)
           (avg low high : option Q) : Csv.Row :=
  {| Csv.year := y; Csv.quarter := q; Csv.season := None;
     Csv.region := area; Csv.market_area := area; Csv.zone := area;
     Csv.county := None;
     Csv.species := sp; Csv.species_group := sp;
     Csv.product := prod; Csv.product_type := prod;
     Csv.product_type_normalized := None;
     Csv.price := avg; Csv.price_avg := avg;
     Csv.price_low := low; Csv.price_high := high;
     Csv.price_min := low; Csv.price_max := high;
     Csv.price_avg_median := avg; Csv.price_low_median := low;
     Csv.price_high_median := high; Csv.avg_bid_index := avg;
     Csv.unit := u; Csv.sample_size := None; Csv.num_reports := None;
     Csv.volume := None; Csv.program := None; Csv.log_rule := None |}.

(** Michigan: one index row. *)
Definition mi_frame : DataFrame :=
  {| columns := ["year"; "quarter"; "market_area"; "species_group"; "product";
                 "avg_bid_index"; "volume"];
     rows := [csv_row (Some 2021%Z) (Some 2%Z) (Some "UP West") (Some "Aspen")
                      (Some "PULP") None (Some 112.5) None None] |}.

(** Minnesota: one row priced per ton. *)
Definition mn_frame : DataFrame :=
  {| columns := ["year"; "species"; "product_type"; "price"; "unit"];
     rows := [csv_row (Some 2021%Z) None None (Some "Aspen") (Some "Pulpwood")
                      (Some "Tons") (Some 12.5) None None] |}.

(** Pennsylvania: the same observation twice, once with the average price
    only and once with the three price fields. *)
Definition pa_frame : DataFrame :=
  {| columns := ["year"; "quarter"; "region"; "species"; "product_type";
                 "price_avg"; "price_low"; "price_high"; "unit"; "sample_size"];
     rows := [csv_row (Some 2020%Z) (Some 1%Z) (Some "Northwest") (Some "Red Oak")
                      (Some "Sawtimber") (Some "$/MBF") (Some 400) None None;
              csv_row (Some 2020%Z) (Some 1%Z) (Some "Northwest") (Some "Red Oak")
                      (Some "Sawtimber") (Some "$/MBF") (Some 400) (Some 300) (Some 500)] |}.

Definition sample_fs : FileSystem :=
  fun path =>
    if path =? "mi_dnr/mi_stumpage_parsed.csv" then Some mi_frame
    else if path =? "mn_dnr/mn_stumpage_parsed.csv" then Some mn_frame
    else if path =? "pa_extension/pa_stumpage_parsed.csv" then Some pa_frame
    else None.

(** The unified table written for [sample_fs]. *)
Definition sample_out : list CanonicalRecord :=
  match Engine.main sample_fs with
  | Some out => out
  | None => []
  end.

Definition canonical (src : string) (y : option Z) (area sp prod : option string)
           (avg low high : option Q) (u : option string) : CanonicalRecord :=
  {| source := src; year := y; quarter := None; period_type := "annual";
     region := area; county := None; species := sp; product_type := prod;
     price_avg := avg; price_low := low; price_high := high; unit := u;
     price_per_ton := None; conversion_factor := None;
     sample_size := None; notes := None |}.

(** The rows of [sample_out], by source. *)
Definition mi_out : CanonicalRecord := nth 0 sample_out (canonical "" None None None None None None None None).
Definition mn_out : CanonicalRecord := nth 1 sample_out (canonical "" None None None None None None None None).

(** A cord-priced row whose species text is empty. *)
Definition cord_row_no_species : CanonicalRecord :=
  canonical "WI" (Some 2020%Z) (Some "Zone 1") (Some "") (Some "pulpwood")
            (Some 28.0) None None (Some "$/cord").

(** Two USFS PNW rows with the same source, year, species and region. *)
Definition pnw_combined_row : CanonicalRecord :=
  canonical "CA" (Some 1990%Z) (Some "Statewide") (Some "all_species") (Some "sawtimber")
            (Some 100) None None (Some "$/MBF").

Definition pnw_species_row : CanonicalRecord :=
  canonical "CA" (Some 1990%Z) (Some "Statewide") (Some "all_species") (Some "sawtimber")
            (Some 120) None None (Some "$/MBF").

(** Classifier inputs. *)
Definition sample_ctx : NH.Context :=
  {| NH.ctx_year := "2024"; NH.ctx_period := "Fall";
     NH.ctx_period_dates := "10/2024-03/2025"; NH.current_region := Some "Northern" |}.

Definition header_row : NH.TableRow :=
  [Some "Species"; Some "Product"; Some "Low"; Some "High"; Some "Unit"].

Definition white_oak_row : NH.TableRow :=
  [Some "White Oak"; Some "Sawlogs"; Some "250.00"; Some "350.00"; Some "MBF"].


Definition three_cell_row : NH.TableRow :=
  [Some "Hemlock"; Some "40"; Some "65"].




(** A table none of whose cells holds SPECIES, PRODUCT, LOW or HIGH. *)
Definition headerless_table : list NH.TableRow :=
  [[Some "Report"; None; Some "2024"]; three_cell_row].

Definition good_table : list NH.TableRow := [header_row; white_oak_row].

Definition sample_info : NH.PeriodInfo :=
  {| NH.start_month := "10"; NH.start_year := "2024";
     NH.end_month := "03"; NH.end_year := "2025" |}.

End Samples.

Module MoreSamples.
Import PNWTransform.

(** A rounding function for the examples: the value itself, reduced. *)
Definition round_exact (q : Q) : Q := Qred q.

Definition raw (y : option Z) (reg sub sp : option string) (price : option Q)
           (table : option string) : RawRow :=
  {| raw_year := y; raw_region := reg; raw_subregion := sub; raw_species := sp;
     raw_price_per_mbf := price; raw_table := table |}.

(** A regional file: one priced row and one row without price. *)
Definition combined_frame : RawFrame :=
  {| has_subregion := true; has_table := true;
     raw_rows :=
       [ raw (Some 1990%Z) (Some "California") (Some "California") None
             (Some 100) (Some "Table 5");
         raw (Some 1991%Z) (Some "California") (Some "California") None
             None (Some "Table 5") ] |}.

(** A species file: a region of the tables and one outside them. *)
Definition species_frame : RawFrame :=
  {| has_subregion := false; has_table := true;
     raw_rows :=
       [ raw (Some 1990%Z) (Some "Pacific_Southwest_CA") None (Some "Douglas-fir")
             (Some 120) (Some "Table 9");
         raw (Some 1990%Z) (Some "Yukon_Flats") None (Some "Paper birch")
             (Some 35) (Some "Table 9") ] |}.

Definition combined_unified : list CanonicalRecord :=
  match transform_combined round_exact combined_frame with Some l => l | None => [] end.

Definition species_unified : list CanonicalRecord :=
  match transform_species round_exact species_frame with Some l => l | None => [] end.

(** The table after integrating the two files into [Samples.sample_out]. *)
Definition integrated : list CanonicalRecord :=
  match integrate round_exact Samples.sample_out combined_frame species_frame with
  | Some l => l
  | None => []
  end.

(** Tennessee rows: an old one for 2023, new ones for 2023 and 2024. *)
Definition tn_old_2023 : CanonicalRecord :=
  Samples.canonical "TN" (Some 2023%Z) (Some "Tennessee") (Some "mixed_hardwood")
                    (Some "sawtimber") (Some 300) None None (Some "$/MBF").

Definition tn_new_2023 : CanonicalRecord :=
  Samples.canonical "TN" (Some 2023%Z) (Some "Tennessee") (Some "mixed_hardwood")
                    (Some "sawtimber") (Some 310) (Some 200) (Some 420) (Some "$/MBF").

Definition tn_new_2024 : CanonicalRecord :=
  Samples.canonical "TN" (Some 2024%Z) (Some "Tennessee") (Some "mixed_hardwood")
                    (Some "sawtimber") (Some 330) (Some 250) (Some 400) (Some "$/MBF").

Definition tn_existing : list CanonicalRecord := [Samples.cord_row_no_species; tn_old_2023].

Definition tn_unified : list CanonicalRecord := [tn_new_2023; tn_new_2024].

End MoreSamples.

(* ================================================================== *)
(** ** Facts about the string primitives *)
(* ================================================================== *)

Module PyFacts.
Import Py PySpec.

Lemma lower_char_idem (c : ascii) : lower_char (lower_char c) = lower_char c.
Proof. destruct c as [[] [] [] [] [] [] [] []]; reflexivity. Qed.

Lemma is_space_lower_char (c : ascii) : is_space (lower_char c) = is_space c.
Proof. destruct c as [[] [] [] [] [] [] [] []]; reflexivity. Qed.

Lemma lower_idem (s : string) : lower (lower s) = lower s.
Proof.
  induction s as [|c t IH]; simpl; [reflexivity|].
  unfold lower in *; simpl. now rewrite lower_char_idem, IH.
Qed.

Lemma lower_lstrip (s : string) : lower (lstrip s) = lstrip (lower s).
Proof.
  induction s as [|c t IH]; [reflexivity|].
  unfold lower in *; simpl. rewrite is_space_lower_char.
  destruct (is_space c); [exact IH | reflexivity].
Qed.

Lemma lower_rstrip (s : string) : lower (rstrip s) = rstrip (lower s).
Proof.
  induction s as [|c t IH]; [reflexivity|].
  unfold lower in *; simpl. rewrite <- IH, is_space_lower_char.
  destruct (rstrip t); simpl; [destruct (is_space c)|]; reflexivity.
Qed.

Lemma lower_strip (s : string) : lower (strip s) = strip (lower s).
Proof. unfold strip. now rewrite lower_rstrip, lower_lstrip. Qed.

Lemma lstrip_head_ok (s : string) : head_ok (lstrip s).
Proof.
  induction s as [|c t IH]; simpl; [exact I|].
  destruct (is_space c) eqn:E; [exact IH | exact E].
Qed.

Lemma lstrip_fixed (s : string) : head_ok s -> lstrip s = s.
Proof. destruct s as [|c t]; simpl; [reflexivity|]. now intros ->. Qed.

Lemma rstrip_head_ok (s : string) : head_ok s -> head_ok (rstrip s).
Proof.
  destruct s as [|c t]; simpl; [trivial|]. intros H.
  destruct (rstrip t); simpl; [rewrite H; exact H | exact H].
Qed.

Lemma rstrip_idem (s : string) : rstrip (rstrip s) = rstrip s.
Proof.
  induction s as [|c t IH]; [reflexivity|]. simpl.
  destruct (rstrip t) as [|d r] eqn:E.
  - destruct (is_space c) eqn:Ec; simpl; [reflexivity | now rewrite Ec].
  - change (rstrip (String c (String d r)) = String c (String d r)).
    change (rstrip (String c (String d r)))
      with (match rstrip (String d r) with
            | EmptyString => if is_space c then EmptyString else String c EmptyString
            | String a b => String c (String a b)
            end).
    now rewrite IH.
Qed.

Lemma strip_idem (s : string) : strip (strip s) = strip s.
Proof.
  unfold strip.
  rewrite (lstrip_fixed (rstrip (lstrip s))).
  - apply rstrip_idem.
  - apply rstrip_head_ok, lstrip_head_ok.
Qed.

(** The normal form [str(x).lower().strip()] is a fixed point of both
    operations. *)
Lemma lower_normal (s : string) : lower (strip (lower s)) = strip (lower s).
Proof. now rewrite lower_strip, lower_idem. Qed.

Lemma normal_idem (s : string) : strip (lower (strip (lower s))) = strip (lower s).
Proof. now rewrite lower_normal, strip_idem. Qed.

End PyFacts.

(* ================================================================== *)
(** ** Facts about the normaliser *)
(* ================================================================== *)

Module NormalizerFacts.
Import Py PyFacts Normalizer NormalizerSpec.

(** Splits the goal along the next [if] of a rule chain. *)
Ltac split_if :=
  match goal with
  | |- context [if ?c then _ else _] =>
      let E := fresh "E" in destruct c eqn:E
  end.

(** The unit rules yield a canonical unit, or pass the text through when
    none of them matches. *)
Lemma classify_unit_cases (u : string) :
  (unit_rule_matches u = true /\
   (classify_unit u = "$/mbf" \/ classify_unit u = "$/cord" \/ classify_unit u = "$/ton"))
  \/ (unit_rule_matches u = false /\ classify_unit u = u).
Proof.
  unfold classify_unit, unit_rule_matches.
  destruct (contains "mbf" u || contains "thousand board" u); simpl; [auto|].
  destruct (contains "cord" u); simpl; [auto|].
  destruct (contains "ton" u); simpl; auto 6.
Qed.

Lemma classify_unit_fixed (u : string) :
  strip (lower u) = u -> classify_unit (strip (lower (classify_unit u))) = classify_unit u.
Proof.
  intros Hu.
  destruct (classify_unit_cases u) as [[_ [H | [H | H]]] | [Hm H]];
    rewrite H; try reflexivity.
  rewrite Hu.
  unfold classify_unit, unit_rule_matches in *.
  destruct (contains "mbf" u || contains "thousand board" u); [discriminate|].
  destruct (contains "cord" u); [discriminate|].
  destruct (contains "ton" u); [discriminate|reflexivity].
Qed.

(** [standardize_unit] is idempotent. *)
Lemma standardize_unit_idempotent (x : option string) :
  standardize_unit (standardize_unit x) = standardize_unit x.
Proof.
  destruct x as [u|]; simpl; [|reflexivity].
  f_equal. apply classify_unit_fixed, normal_idem.
Qed.

(** The product rules yield a canonical name, or pass the text through
    when none of them matches. *)
Lemma classify_product_cases (p : string) :
  (product_rule_matches p = true /\ In (classify_product p) canonical_products)
  \/ (product_rule_matches p = false /\ classify_product p = p).
Proof.
  unfold classify_product, product_rule_matches.
  repeat (split_if; simpl;
          [ left; split;
            [ rewrite ?orb_true_r; reflexivity
            | repeat split_if; simpl; tauto ]
          | ]).
  right. split; reflexivity.
Qed.

Lemma classify_product_passthrough (p : string) :
  product_rule_matches p = false -> classify_product p = p.
Proof.
  intros H. destruct (classify_product_cases p) as [[H' _] | [_ H']]; [congruence | exact H'].
Qed.

(** [standardize_product_type] is idempotent on every input it does not
    send to ['fiber_fuel']. *)
Lemma standardize_product_type_idempotent_but_fiber (x : option string) :
  standardize_product_type x <> Some "fiber_fuel" ->
  standardize_product_type (standardize_product_type x) = standardize_product_type x.
Proof.
  destruct x as [p|]; simpl; [|reflexivity].
  intros Hne. f_equal.
  destruct (classify_product_cases (strip (lower p))) as [[_ Hin] | [Hm Hp]].
  - simpl in Hin.
    repeat (destruct Hin as [Hin | Hin];
            [ rewrite <- Hin in *; try reflexivity; exfalso; apply Hne; reflexivity | ]).
    contradiction.
  - rewrite Hp, normal_idem. exact Hp.
Qed.

End NormalizerFacts.

(* ================================================================== *)
(** ** Facts about the converter, the adapters and the engine *)
(* ================================================================== *)

Module ConverterFacts.
Import Py PyFacts Normalizer NormalizerFacts Converter.

Lemma unit_set_conversion_factor r v : unit (set_conversion_factor r v) = unit r.
Proof. reflexivity. Qed.

Lemma unit_convert_row r : unit (convert_row r) = unit r.
Proof. reflexivity. Qed.

Lemma source_convert_row r : source (convert_row r) = source r.
Proof. reflexivity. Qed.

Lemma dedup_key_convert_row r : dedup_key (convert_row r) = dedup_key r.
Proof. reflexivity. Qed.

Lemma conversion_factor_convert_row r :
  conversion_factor (convert_row r) = get_conversion_factor r.
Proof. reflexivity. Qed.

Lemma price_per_ton_convert_row r :
  price_per_ton (convert_row r) =
  convert_price (set_conversion_factor r (get_conversion_factor r)) price_avg.
Proof. reflexivity. Qed.

(** No cord or MBF factor of the registry equals 1. *)
Lemma cord_factor_not_one species pt :
  ~ (Registry.get_cord_to_ton_factor species pt == 1.0).
Proof.
  unfold Registry.get_cord_to_ton_factor.
  repeat split_if; vm_compute; discriminate.
Qed.

Lemma mbf_factor_not_one species pt :
  ~ (Registry.get_mbf_to_ton_factor species pt == 1.0).
Proof.
  unfold Registry.get_mbf_to_ton_factor.
  repeat split_if; vm_compute; discriminate.
Qed.

(** Among the units the adapters produce, only ['$/ton'] contains ['ton']. *)
Lemma adapter_unit_ton u :
  adapter_unit u -> contains "ton" (lower_or_empty u) = true -> u = Some "$/ton".
Proof.
  intros [-> | [-> | [x ->]]]; try (vm_compute; discriminate).
  destruct x as [x|]; simpl; [|vm_compute; discriminate].
  destruct (classify_unit_cases (strip (lower x))) as [[_ [H | [H | H]]] | [Hm H]];
    rewrite H; try (vm_compute; discriminate); [reflexivity|].
  rewrite lower_normal. intros Ht.
  unfold unit_rule_matches in Hm. rewrite Ht, orb_true_r in Hm. discriminate.
Qed.

(** The factor of a row is 1.0 exactly when its unit text contains ['ton']. *)
Lemma get_conversion_factor_one r :
  (exists f, get_conversion_factor r = Some f /\ f == 1.0) <->
  contains "ton" (lower_or_empty (unit r)) = true.
Proof.
  unfold get_conversion_factor.
  destruct (contains "ton" (lower_or_empty (unit r))).
  - split; [reflexivity|]. intros _. exists 1.0. split; reflexivity.
  - split; [|discriminate]. intros [f [H Hf]]. exfalso.
    destruct (contains "cord" (lower_or_empty (unit r))).
    + injection H as <-. exact (cord_factor_not_one _ _ Hf).
    + destruct (contains "mbf" (lower_or_empty (unit r))).
      * injection H as <-. exact (mbf_factor_not_one _ _ Hf).
      * destruct (contains "index" (lower_or_empty (unit r))); discriminate.
Qed.

(** A row in ['$/ton'] gets factor 1.0 and keeps its average price. *)
Lemma convert_row_ton r :
  contains "ton" (lower_or_empty (unit r)) = true ->
  conversion_factor (convert_row r) = Some 1.0 /\
  price_per_ton (convert_row r) = price_avg r.
Proof.
  intros H. rewrite conversion_factor_convert_row, price_per_ton_convert_row.
  unfold get_conversion_factor, convert_price. simpl. rewrite H. simpl.
  split; [reflexivity|]. now destruct (price_avg r).
Qed.

(** A row whose unit is ['index'] is never converted. *)
Lemma convert_row_index r :
  unit r = Some "index" ->
  conversion_factor (convert_row r) = None /\ price_per_ton (convert_row r) = None.
Proof.
  intros H. rewrite conversion_factor_convert_row, price_per_ton_convert_row.
  unfold get_conversion_factor, convert_price. simpl. rewrite H. simpl.
  split; [reflexivity|]. now destruct (price_avg r).
Qed.

End ConverterFacts.

Module EngineFacts.
Import Py Normalizer Adapters Engine ConverterFacts.

(** Unfolds one loader down to the row that produced a record. *)
Ltac open_loader H Hin :=
  match type of H with
  | match ?fs ?path with _ => _ end = Some _ =>
      destruct (fs path) as [df'|];
      [ unfold build in H;
        match type of H with
        | (if ?c then _ else _) = _ => destruct c; [|discriminate]
        end;
        injection H as <-;
        apply in_map_iff in Hin;
        let row := fresh "row" in
        destruct Hin as [row [<- _]]
      | injection H as <-; destruct Hin ]
  end.

Ltac solve_adapter_row :=
  split; simpl;
  [ unfold adapter_unit;
    first [ left; reflexivity
          | right; left; reflexivity
          | right; right; eexists; reflexivity ]
  | first [ reflexivity | intros; discriminate ] ].

(** Every loader of [main] yields frames of [adapter_row]s. *)
Lemma loaders_adapter_row name loader :
  In (name, loader) loaders ->
  forall fs df r, loader fs = Some df -> In r df -> adapter_row r.
Proof.
  unfold loaders. simpl. intros Hl fs df r H Hin.
  repeat (destruct Hl as [Hl | Hl];
          [ injection Hl as _ <-;
            match type of H with ?f _ = _ => unfold f in H end;
            open_loader H Hin; solve_adapter_row | ]).
  contradiction.
Qed.

(** The Michigan loader marks each of its rows as an index. *)
Lemma load_michigan_rows fs df r :
  load_michigan fs = Some df -> In r df ->
  source r = "MI" /\ unit r = Some "index".
Proof.
  intros H Hin. unfold load_michigan in H. open_loader H Hin. split; reflexivity.
Qed.

(** The loading loop keeps an invariant of the rows of the frames. *)
Lemma load_loop_invariant (P : CanonicalRecord -> Prop) fs ls :
  (forall name loader, In (name, loader) ls ->
     forall df r, loader fs = Some df -> In r df -> P r) ->
  forall acc,
    (forall df r, In df acc -> In r df -> P r) ->
    forall df r,
      In df (fold_left
               (fun all_data (loader : string * (FileSystem -> Loaded)) =>
                  match snd loader fs with
                  | Some [] => all_data
                  | Some df => (all_data ++ [df])%list
                  | None => all_data
                  end) ls acc) ->
      In r df -> P r.
Proof.
  induction ls as [|[name loader] ls IH]; intros Hls acc Hacc df r; simpl.
  - apply Hacc.
  - apply IH.
    + intros n l Hin. apply (Hls n l). now right.
    + intros df' r' Hdf Hr.
      destruct (loader fs) as [[|x d]|] eqn:El; try now apply (Hacc df' r').
      apply in_app_or in Hdf. destruct Hdf as [Hdf | [<- | []]].
      * now apply (Hacc df' r').
      * apply (Hls name loader (or_introl eq_refl) (x :: d) r' El Hr).
Qed.

Lemma load_all_adapter_row fs df r :
  In df (load_all fs) -> In r df -> adapter_row r.
Proof.
  unfold load_all. apply load_loop_invariant.
  - intros name loader Hin df' r'. now apply (loaders_adapter_row name loader).
  - intros ? ? [].
Qed.

(** What [main] writes: every loaded row, converted, in loading order. *)
Lemma main_spec fs out :
  main fs = Some out ->
  out = map Converter.convert_row (List.concat (load_all fs)).
Proof.
  unfold main. destruct (load_all fs) as [|d ds]; [discriminate|].
  intros H. injection H as <-. rewrite map_map. reflexivity.
Qed.

Lemma main_rows fs out r :
  main fs = Some out -> In r out ->
  exists r0, r = Converter.convert_row r0 /\ adapter_row r0.
Proof.
  intros H Hin. rewrite (main_spec fs out H) in Hin.
  apply in_map_iff in Hin. destruct Hin as [r0 [<- Hin]].
  exists r0. split; [reflexivity|].
  apply in_concat in Hin. destruct Hin as [df [Hdf Hr]].
  exact (load_all_adapter_row fs df r0 Hdf Hr).
Qed.

End EngineFacts.

(* ================================================================== *)
(** ** Facts about the table row classifier *)
(* ================================================================== *)

Module NHFacts.
Import Py NH NHSpec.

Lemma no_header_keyword_cons row table :
  no_header_keyword (row :: table) ->
  is_header_row row = false /\ no_header_keyword table.
Proof.
  intros H. split.
  - unfold is_header_row. apply not_true_is_false. intros E.
    apply existsb_exists in E. destruct E as [c [Hc E]].
    rewrite (H row c (or_introl eq_refl) Hc) in E. discriminate.
  - intros r c Hr Hc. apply (H r c); [now right | exact Hc].
Qed.

(** Without a header keyword no header row is found. *)
Lemma rows_after_header_none table :
  no_header_keyword table -> rows_after_header table = None.
Proof.
  induction table as [|row table IH]; intros H; simpl; [reflexivity|].
  apply no_header_keyword_cons in H. destruct H as [-> H]. now apply IH.
Qed.

Lemma process_table_no_header ctx table :
  no_header_keyword table -> process_table ctx table = [].
Proof.
  intros H. unfold process_table. rewrite (rows_after_header_none table H).
  now destruct (List.length table <? 2)%nat.
Qed.


(** What the loop body does with a data row. *)
Lemma classify_row_data ctx row :
  data_row row = true ->
  classify_row ctx row =
  match price_of (cell row (low_index row)), price_of (cell row (high_index row)) with
  | None, None => None
  | _, _ => Some (record_of ctx row)
  end.
Proof.
  unfold data_row, classify_row, record_of, low_index, high_index.
  intros H.
  apply andb_prop in H. destruct H as [H H4].
  apply andb_prop in H. destruct H as [H H3].
  apply andb_prop in H. destruct H as [H1 H2].
  apply negb_true_iff in H1, H2, H3, H4.
  rewrite H1, H2, H3, H4.
  apply Nat.ltb_ge in H1.
  destruct (5 <=? List.length row)%nat eqn:E5.
  - destruct (price_of (cell row 2)), (price_of (cell row 3)); reflexivity.
  - destruct (4 <=? List.length row)%nat eqn:E4.
    + destruct (price_of (cell row 1)), (price_of (cell row 2)); reflexivity.
    + apply Nat.leb_le in H1. rewrite H1.
      destruct (price_of (cell row 1)), (price_of (cell row 2)); reflexivity.
Qed.

(** A row the loop keeps is a data row. *)
Lemma classify_row_some ctx row r :
  classify_row ctx row = Some r -> data_row row = true.
Proof.
  unfold classify_row, data_row.
  destruct (List.length row <? 3)%nat; [discriminate|].
  destruct (negb (existsb truthy row) || forallb blank_cell row); [discriminate|].
  destruct (existsb _ reject_keywords); [discriminate|].
  destruct (strip_or_empty (cell row 0) =? ""); [discriminate|].
  reflexivity.
Qed.

End NHFacts.

(* ================================================================== *)
(** ** Facts about the USFS PNW merge *)
(* ================================================================== *)

Module PNWFacts.
Import PNW.

Lemma opt_eqb_eq {A} (eqb : A -> A -> bool) :
  (forall a b, eqb a b = true <-> a = b) ->
  forall x y, opt_eqb eqb x y = true <-> x = y.
Proof.
  intros H [a|] [b|]; simpl; try (split; [discriminate | congruence]).
  - rewrite H. split; congruence.
  - split; reflexivity.
Qed.

Lemma key_eqb_eq a b : key_eqb a b = true <-> a = b.
Proof.
  destruct a as [[[s1 y1] sp1] r1], b as [[[s2 y2] sp2] r2]. simpl.
  rewrite !andb_true_iff, String.eqb_eq,
    (opt_eqb_eq Z.eqb Z.eqb_eq), !(opt_eqb_eq String.eqb String.eqb_eq).
  split.
  - intros [[[-> ->] ->] ->]. reflexivity.
  - intros H. injection H as -> -> -> ->. auto.
Qed.

(** No later row shares the key of [row]. *)
Lemma no_later_duplicate row rest :
  existsb (fun later => key_eqb (subset_key row) (subset_key later)) rest = false <->
  (forall later, In later rest -> subset_key later <> subset_key row).
Proof.
  split.
  - intros H later Hin E.
    assert (existsb (fun l => key_eqb (subset_key row) (subset_key l)) rest = true)
      as C; [|congruence].
    apply existsb_exists. exists later. split; [exact Hin|].
    apply key_eqb_eq. now symmetry.
  - intros H. apply not_true_is_false. intros E.
    apply existsb_exists in E. destruct E as [later [Hin E]].
    apply key_eqb_eq in E. now apply (H later Hin).
Qed.

(** The rows kept are the last of their key. *)
Lemma drop_duplicates_last_In df r :
  In r (drop_duplicates_last df) <->
  exists before after,
    df = (before ++ r :: after)%list /\
    forall later, In later after -> subset_key later <> subset_key r.
Proof.
  induction df as [|row rest IH]; cbn [drop_duplicates_last].
  - split; [contradiction|]. intros [[|x b] [a [H _]]]; discriminate.
  - split.
    + intros H.
      destruct (existsb _ rest) eqn:E.
      * apply IH in H. destruct H as [b [a [-> Ha]]].
        exists (row :: b), a. split; [reflexivity | exact Ha].
      * destruct H as [<- | H].
        -- exists [], rest. split; [reflexivity|]. now apply no_later_duplicate.
        -- apply IH in H. destruct H as [b [a [-> Ha]]].
           exists (row :: b), a. split; [reflexivity | exact Ha].
    + intros [b [a [H Ha]]].
      destruct b as [|x b]; simpl in H; injection H as H1 H2; subst.
      * apply no_later_duplicate in Ha. rewrite Ha. now left.
      * assert (In r (drop_duplicates_last (b ++ r :: a))) as Hr.
        { apply IH. now exists b, a. }
        destruct (existsb _ (b ++ r :: a)); [exact Hr | now right].
Qed.

Lemma drop_duplicates_last_subset df r :
  In r (drop_duplicates_last df) -> In r df.
Proof.
  intros H. apply drop_duplicates_last_In in H.
  destruct H as [b [a [-> _]]]. apply in_elt.
Qed.

(** After the merge every key occurs once. *)
Lemma drop_duplicates_last_NoDup df :
  NoDup (map subset_key (drop_duplicates_last df)).
Proof.
  induction df as [|row rest IH]; cbn [drop_duplicates_last]; [constructor|].
  destruct (existsb _ rest) eqn:E; [exact IH|].
  cbn [map]. constructor; [|exact IH].
  intros Hin. apply in_map_iff in Hin. destruct Hin as [r [Hk Hr]].
  apply drop_duplicates_last_subset in Hr.
  rewrite no_later_duplicate in E. exact (E r Hr Hk).
Qed.

(** No key is lost by the merge. *)
Lemma drop_duplicates_last_keeps_keys df r :
  In r df ->
  exists r', In r' (drop_duplicates_last df) /\ subset_key r' = subset_key r.
Proof.
  revert r.
  induction df as [|row rest IH]; cbn [drop_duplicates_last]; [contradiction|].
  intros r [-> | Hin].
  - destruct (existsb _ rest) eqn:E.
    + apply existsb_exists in E. destruct E as [later [Hl E]].
      apply key_eqb_eq in E. destruct (IH later Hl) as [r' [Hr' Hk]].
      exists r'. split; [exact Hr' | congruence].
    + exists r. split; [now left | reflexivity].
  - destruct (IH r Hin) as [r' [Hr' Hk]]. exists r'. split; [|exact Hk].
    destruct (existsb _ rest); [exact Hr' | now right].
Qed.

End PNWFacts.

(* ================================================================== *)
(** ** Further facts: normal forms, adapter rows, loading *)
(* ================================================================== *)

Module ShapeFacts.
Import Py PyFacts Normalizer NormalizerSpec NormalizerFacts Adapters Engine Shape.

Lemma lower_upper_char (c : ascii) : lower_char (upper_char c) = lower_char c.
Proof. destruct c as [[] [] [] [] [] [] [] []]; reflexivity. Qed.

Lemma lower_upper (s : string) : lower (upper s) = lower s.
Proof.
  induction s as [|c t IH]; [reflexivity|].
  unfold lower, upper in *; simpl. now rewrite lower_upper_char, IH.
Qed.

Lemma strip_lower_strip (s : string) : strip (lower (strip s)) = strip (lower s).
Proof. now rewrite lower_strip, strip_idem. Qed.

(** The rules return text in normal form when given such text. *)
Lemma classify_product_normal (p : string) :
  strip (lower p) = p -> strip (lower (classify_product p)) = classify_product p.
Proof.
  intros Hp.
  destruct (classify_product_cases p) as [[_ Hin] | [_ H]].
  - simpl in Hin.
    repeat (destruct Hin as [Hin | Hin]; [rewrite <- Hin; reflexivity|]).
    contradiction.
  - now rewrite H.
Qed.

Lemma classify_unit_normal (u : string) :
  strip (lower u) = u -> strip (lower (classify_unit u)) = classify_unit u.
Proof.
  intros Hu.
  destruct (classify_unit_cases u) as [[_ [H | [H | H]]] | [_ H]];
    rewrite H; try reflexivity. exact Hu.
Qed.

Lemma standardize_product_type_normal x : normal_text (standardize_product_type x).
Proof.
  destruct x as [p|]; simpl; [|exact I].
  apply classify_product_normal, normal_idem.
Qed.

Lemma standardize_unit_normal x : normal_text (standardize_unit x).
Proof.
  destruct x as [u|]; simpl; [|exact I].
  apply classify_unit_normal, normal_idem.
Qed.

Lemma season_to_quarter_range key :
  In (season_to_quarter key) [None; Some 1%Z; Some 2%Z; Some 3%Z; Some 4%Z].
Proof.
  unfold season_to_quarter.
  repeat match goal with
         | |- context [if ?c then _ else _] => destruct c
         end; simpl; tauto.
Qed.

(** Closes one clause of the shape of an adapter row. *)
Ltac shape_clause :=
  intros;
  repeat match goal with
         | |- context [if has_column ?df ?c then _ else _] => destruct (has_column df c)
         end;
  first
    [ reflexivity
    | exact I
    | apply standardize_product_type_normal
    | apply standardize_unit_normal
    | apply season_to_quarter_range
    | (simpl; tauto)
    | match goal with H : ?x <> ?x |- _ => now elim H end
    | match goal with H : _ = _ |- _ => discriminate H end
    | match goal with
      | H : In _ _ |- _ =>
          simpl in H; repeat (destruct H as [H | H]; [discriminate H|]); contradiction
      end
    | (repeat match goal with
              | |- context [if ?c then _ else _] => destruct c
              end; reflexivity) ].

(** Every loader of [main] builds rows with the adapter's constants and
    with normalised text columns. *)
Lemma loaders_shape name loader :
  In (name, loader) loaders ->
  forall fs df r, loader fs = Some df -> In r df ->
    adapter_constants r /\ normal_columns r.
Proof.
  unfold loaders. simpl. intros Hl fs df r H Hin.
  repeat (destruct Hl as [Hl | Hl];
          [ injection Hl as _ <-;
            match type of H with ?f _ = _ => unfold f in H end;
            EngineFacts.open_loader H Hin;
            unfold adapter_constants, normal_columns;
            cbn [source period_type quarter county price_low price_high region unit
                 product_type price_per_ton conversion_factor];
            repeat split; shape_clause | ]).
  contradiction.
Qed.

(** Each adapter writes its own source code in every row. *)
Lemma loader_codes_source code loader :
  In (code, loader) loader_codes ->
  forall fs r, In r (rows_of (loader fs)) -> source r = code.
Proof.
  unfold loader_codes. simpl. intros Hl fs r Hin.
  repeat (destruct Hl as [Hl | Hl];
          [ injection Hl as <- <-;
            match type of Hin with
            | In _ (rows_of (?f _)) =>
                destruct (f fs) as [df|] eqn:H; [|destruct Hin];
                unfold f in H
            end;
            simpl in Hin;
            EngineFacts.open_loader H Hin; reflexivity | ]).
  contradiction.
Qed.

(** The loading loop appends the non-empty frames, in the order of the
    loaders. *)
Lemma load_loop_flat_map fs ls acc :
  fold_left
    (fun all_data (loader : string * (FileSystem -> Loaded)) =>
       match snd loader fs with
       | Some [] => all_data
       | Some df => (all_data ++ [df])%list
       | None => all_data
       end) ls acc =
  (acc ++ flat_map (fun loader : string * (FileSystem -> Loaded) =>
                      match snd loader fs with
                      | Some (x :: d) => [x :: d]
                      | _ => []
                      end) ls)%list.
Proof.
  revert acc. induction ls as [|l ls IH]; intros acc; simpl.
  - now rewrite app_nil_r.
  - rewrite IH. destruct (snd l fs) as [[|x d]|]; simpl; try reflexivity.
    now rewrite <- app_assoc.
Qed.

Lemma concat_frames fs (ls : list (string * (FileSystem -> Loaded))) :
  List.concat (flat_map (fun loader : string * (FileSystem -> Loaded) =>
                           match snd loader fs with
                           | Some (x :: d) => [x :: d]
                           | _ => []
                           end) ls) =
  flat_map (fun loader => rows_of (snd loader fs)) ls.
Proof.
  induction ls as [|l ls IH]; [reflexivity|].
  cbn [flat_map]. rewrite concat_app, IH.
  destruct (snd l fs) as [[|x d]|]; simpl; try reflexivity.
  now rewrite app_nil_r.
Qed.

Lemma all_rows_flat_map fs :
  List.concat (load_all fs) = flat_map (fun loader => rows_of (snd loader fs)) loaders.
Proof.
  unfold load_all. rewrite load_loop_flat_map. apply concat_frames.
Qed.

Lemma filter_source_piece fs code' loader code :
  In (code', loader) loader_codes ->
  filter (fun r => source r =? code) (rows_of (loader fs)) =
  if code' =? code then rows_of (loader fs) else [].
Proof.
  intros Hin.
  pose proof (loader_codes_source code' loader Hin fs) as Hs.
  induction (rows_of (loader fs)) as [|r l IH]; simpl.
  - now destruct (code' =? code).
  - rewrite (Hs r (or_introl eq_refl)), IH by (intros r' Hr'; apply Hs; now right).
    now destruct (code' =? code).
Qed.

(** The rows of [main], whatever the loads gave. *)
Lemma main_rows_inv (P : CanonicalRecord -> Prop) :
  (forall name loader, In (name, loader) loaders ->
     forall fs df r, loader fs = Some df -> In r df -> P r) ->
  forall fs out r, main fs = Some out -> In r out ->
    exists r0, r = Converter.convert_row r0 /\ P r0.
Proof.
  intros HP fs out r H Hin. rewrite (EngineFacts.main_spec fs out H) in Hin.
  apply in_map_iff in Hin. destruct Hin as [r0 [<- Hin]].
  exists r0. split; [reflexivity|].
  apply in_concat in Hin. destruct Hin as [df [Hdf Hr]].
  revert df r0 Hdf Hr. unfold load_all. apply EngineFacts.load_loop_invariant.
  - intros name loader Hl df r'. now apply (HP name loader).
  - intros ? ? [].
Qed.

(** Units of adapter rows: a canonical unit, or text without a unit
    keyword. *)
Lemma adapter_unit_cases u :
  adapter_unit u ->
  In u [Some "$/ton"; Some "$/cord"; Some "$/mbf"] \/
  (contains "ton" (Converter.lower_or_empty u) = false /\
   contains "cord" (Converter.lower_or_empty u) = false /\
   contains "mbf" (Converter.lower_or_empty u) = false /\
   ~ In u [Some "$/ton"; Some "$/cord"; Some "$/mbf"]).
Proof.
  intros [-> | [-> | [x ->]]].
  - right. repeat split; try reflexivity. simpl. intuition discriminate.
  - left. simpl. tauto.
  - destruct x as [x|]; simpl standardize_unit.
    + destruct (classify_unit_cases (strip (lower x))) as [[_ [H | [H | H]]] | [Hm H]];
        rewrite H; try (left; simpl; tauto).
      right. unfold unit_rule_matches in Hm.
      apply orb_false_elim in Hm. destruct Hm as [Hm Ht].
      apply orb_false_elim in Hm. destruct Hm as [Hm Hc].
      apply orb_false_elim in Hm. destruct Hm as [Hm _].
      cbn [Converter.lower_or_empty]. rewrite lower_normal.
      repeat split; try assumption.
      simpl. intros [E | [E | [E | []]]]; injection E as E;
        rewrite <- E in *; vm_compute in Ht, Hc, Hm; discriminate.
    + right. repeat split; try reflexivity. simpl. intuition discriminate.
Qed.

End ShapeFacts.

(* ================================================================== *)
(** ** Facts about the USFS PNW transforms and the Tennessee merge *)
(* ================================================================== *)

Module IntegrationFacts.
Import Py PNW PNWTransform IntegrationSpec.

(** A row of a transformed frame was appended for some raw row. *)
Lemma run_steps_In step rows out r :
  run_steps step rows = Some out -> In r out ->
  exists row, In row rows /\ step row = Append r.
Proof.
  revert out. induction rows as [|row rest IH]; intros out H Hin; simpl in H.
  - injection H as <-. destruct Hin.
  - destruct (step row) as [| |r'] eqn:E; [|discriminate|].
    + destruct (IH out H Hin) as [row' [Hr Hs]]. exists row'. split; [now right|exact Hs].
    + destruct (run_steps step rest) as [out'|]; [|discriminate].
      injection H as <-. destruct Hin as [<- | Hin].
      * exists row. split; [now left | exact E].
      * destruct (IH out' eq_refl Hin) as [row' [Hr Hs]].
        exists row'. split; [now right | exact Hs].
Qed.

Lemma usfs_row_shape round2 state y region sp p table :
  usfs_shape round2 (usfs_row round2 state y region sp p table).
Proof.
  unfold usfs_shape, usfs_row. cbn.
  repeat split; try discriminate. exists p. split; reflexivity.
Qed.

(** Follows a loop body down to the row it appends. *)
Ltac open_step H :=
  repeat match type of H with
         | context [if ?c then _ else _] => destruct c
         | context [match ?x with _ => _ end] => destruct x
         end;
  try discriminate H; injection H as <-.

Lemma combined_step_shape round2 df row r :
  combined_step round2 df row = Append r -> usfs_shape round2 r.
Proof.
  unfold combined_step. intros H. open_step H; apply usfs_row_shape.
Qed.

Lemma species_step_shape round2 df row r :
  species_step round2 df row = Append r -> usfs_shape round2 r.
Proof.
  unfold species_step. intros H. open_step H; apply usfs_row_shape.
Qed.

Lemma transform_combined_shape round2 df out r :
  transform_combined round2 df = Some out -> In r out -> usfs_shape round2 r.
Proof.
  intros H Hin. destruct (run_steps_In _ _ out r H Hin) as [row [_ Hs]].
  exact (combined_step_shape round2 df row r Hs).
Qed.

Lemma transform_species_shape round2 df out r :
  transform_species round2 df = Some out -> In r out -> usfs_shape round2 r.
Proof.
  intros H Hin. destruct (run_steps_In _ _ out r H Hin) as [row [_ Hs]].
  exact (species_step_shape round2 df row r Hs).
Qed.

(** Every key of [REGION_TO_STATES] is a key of [SUBREGION_TO_STATE]. *)
Lemma region_keys_covered reg :
  dict_get SUBREGION_TO_STATE reg = None -> dict_get REGION_TO_STATES reg = None.
Proof.
  intros H.
  destruct (dict_get REGION_TO_STATES reg) eqn:E; [|reflexivity]. exfalso.
  unfold REGION_TO_STATES in E. cbn [dict_get] in E.
  repeat match type of E with
         | (if ?k =? reg then _ else _) = _ =>
             destruct (String.eqb_spec k reg) as [<- | _];
             [vm_compute in H; discriminate|]
         end.
  discriminate.
Qed.

(** A list without duplicate keys is left alone by the merge. *)
Lemma drop_duplicates_last_fixed df :
  NoDup (map subset_key df) -> drop_duplicates_last df = df.
Proof.
  induction df as [|row rest IH]; [reflexivity|].
  cbn [map drop_duplicates_last]. intros H.
  apply NoDup_cons_iff in H. destruct H as [Hn Hd].
  assert (existsb (fun later => key_eqb (subset_key row) (subset_key later)) rest = false)
    as E.
  { apply PNWFacts.no_later_duplicate. intros later Hl Hk.
    apply Hn. rewrite <- Hk. now apply in_map. }
  rewrite E, (IH Hd). reflexivity.
Qed.

Lemma NoDup_map_through {A B C} (f : A -> B) (h : A -> C) (g : B -> C) l :
  (forall x y, g x = g y -> x = y) ->
  (forall x, In x l -> h x = g (f x)) ->
  NoDup (map f l) -> NoDup (map h l).
Proof.
  intros Hg. induction l as [|x l IH]; intros Hh H; simpl; [constructor|].
  simpl in H. apply NoDup_cons_iff in H. destruct H as [Hn Hd].
  constructor.
  - intros Hin. apply in_map_iff in Hin. destruct Hin as [y [Hy Hl]].
    apply Hn. apply in_map_iff. exists y. split; [|exact Hl].
    apply Hg. rewrite <- (Hh y (or_intror Hl)), <- (Hh x (or_introl eq_refl)). exact Hy.
  - apply IH; [|exact Hd]. intros y Hy. apply Hh. now right.
Qed.

Lemma Permutation_filter {A} (f : A -> bool) l l' :
  Permutation l l' -> Permutation (filter f l) (filter f l').
Proof.
  induction 1 as [|x l l' _ IH|x y l|l l' l'' _ IH1 _ IH2]; simpl.
  - constructor.
  - destruct (f x); [now constructor | exact IH].
  - destruct (f x), (f y); try reflexivity. constructor.
  - now transitivity (filter f l').
Qed.

Lemma filter_none {A} (f : A -> bool) l :
  (forall x, In x l -> f x = false) -> filter f l = [].
Proof.
  induction l as [|x l IH]; intros H; simpl; [reflexivity|].
  rewrite (H x (or_introl eq_refl)). apply IH. intros y Hy. apply H. now right.
Qed.

Lemma filter_idem {A} (f : A -> bool) l : filter f (filter f l) = filter f l.
Proof.
  induction l as [|x l IH]; simpl; [reflexivity|].
  destruct (f x) eqn:E; simpl; [rewrite E|]; now rewrite IH.
Qed.

End IntegrationFacts.

(* ================================================================== *)
(** ** Further facts about the table row classifier *)
(* ================================================================== *)

Module NHMoreFacts.
Import Py PyFacts NH NHSpec NHSpec2.

Lemma classify_rows_In ctx rows r :
  In r (classify_rows ctx rows) ->
  exists row, In row rows /\ classify_row ctx row = Some r.
Proof.
  induction rows as [|row rest IH]; simpl; [contradiction|].
  destruct (classify_row ctx row) as [r'|] eqn:E.
  - intros [<- | H].
    + exists row. split; [now left | exact E].
    + destruct (IH H) as [row' [Hin Hc]]. exists row'. split; [now right | exact Hc].
  - intros H. destruct (IH H) as [row' [Hin Hc]]. exists row'. split; [now right | exact Hc].
Qed.

Lemma rows_after_header_incl table rows row :
  rows_after_header table = Some rows -> In row rows -> In row table.
Proof.
  induction table as [|x table IH]; simpl; [discriminate|].
  destruct (is_header_row x).
  - intros H. injection H as <-. now right.
  - intros H Hin. right. now apply IH.
Qed.

Lemma process_table_In ctx table r :
  In r (process_table ctx table) ->
  exists row, In row table /\ classify_row ctx row = Some r.
Proof.
  unfold process_table.
  destruct (List.length table <? 2)%nat; [contradiction|].
  destruct (rows_after_header table) as [rows|] eqn:E; [|contradiction].
  intros H. destruct (classify_rows_In ctx rows r H) as [row [Hin Hc]].
  exists row. split; [|exact Hc]. exact (rows_after_header_incl table rows row E Hin).
Qed.

Lemma process_page_In info page r :
  In r (process_page info page) ->
  exists txt table row,
    text page = Some txt /\ In table (tables page) /\ In row table /\
    classify_row (page_context info txt) row = Some r.
Proof.
  unfold process_page. destruct (text page) as [[|c t]|]; try contradiction.
  intros H. apply in_flat_map in H. destruct H as [table [Ht H]].
  destruct (process_table_In _ table r H) as [row [Hin Hc]].
  exists (String c t), table, row. repeat split; assumption.
Qed.

Lemma parse_stumpage_pdf_In filename pages r :
  In r (parse_stumpage_pdf filename pages) ->
  exists page txt table row,
    In page pages /\ text page = Some txt /\ In table (tables page) /\ In row table /\
    classify_row (page_context (period_info_of filename) txt) row = Some r.
Proof.
  unfold parse_stumpage_pdf. intros H.
  apply in_flat_map in H. destruct H as [page [Hp H]].
  destruct (process_page_In _ page r H) as (txt & table & row & H1 & H2 & H3 & H4).
  exists page, txt, table, row. repeat split; assumption.
Qed.

(** A kept row gives the record of its cells; it is a data row with a
    price bound. *)
Lemma classify_row_record ctx row r :
  classify_row ctx row = Some r ->
  r = record_of ctx row /\ data_row row = true /\
  (price_low r <> None \/ price_high r <> None).
Proof.
  intros H. pose proof (NHFacts.classify_row_some ctx row r H) as Hd.
  rewrite (NHFacts.classify_row_data ctx row Hd) in H.
  destruct (price_of (cell row (low_index row))) eqn:El,
           (price_of (cell row (high_index row))) eqn:Eh;
    try discriminate; injection H as <-; (split; [reflexivity|]); (split; [exact Hd|]);
    cbn [price_low price_high record_of]; rewrite ?El, ?Eh;
    first [left; discriminate | right; discriminate].
Qed.

Lemma strip_or_empty_stripped c : strip (strip_or_empty c) = strip_or_empty c.
Proof.
  destruct c as [[|a t]|]; try reflexivity.
  cbn [strip_or_empty truthy]. apply strip_idem.
Qed.

Lemma region_of_text_range txt :
  In (region_of_text txt) [None; Some "Northern"; Some "Central"; Some "Southern"].
Proof.
  unfold region_of_text.
  destruct (contains "SOUTHERN" (upper txt)), (contains "CENTRAL" (upper txt)),
    (contains "NORTHERN" (upper txt)); simpl; tauto.
Qed.

(** White space only. *)
Lemma all_space_lstrip s : all_space (lstrip s) = all_space s.
Proof.
  induction s as [|c t IH]; [reflexivity|]. simpl.
  destruct (is_space c) eqn:E; [exact IH | simpl; now rewrite E].
Qed.

Lemma rstrip_empty s : rstrip s = "" <-> all_space s = true.
Proof.
  induction s as [|c t IH]; simpl; [tauto|].
  destruct (rstrip t) as [|d r] eqn:E.
  - destruct (is_space c); simpl.
    + split; [intros _; now apply IH | reflexivity].
    + split; discriminate.
  - split; [discriminate|]. intros H. apply andb_prop in H. destruct H as [_ H].
    apply IH in H. discriminate.
Qed.

Lemma strip_empty s : strip s = "" <-> all_space s = true.
Proof. unfold strip. now rewrite rstrip_empty, all_space_lstrip. Qed.

Lemma blank_all_space v : ((v =? "") || (strip v =? ""))%bool = all_space v.
Proof.
  destruct (all_space v) eqn:E.
  - apply strip_empty in E. rewrite E. apply orb_true_r.
  - apply orb_false_intro.
    + destruct v; [discriminate | reflexivity].
    + apply String.eqb_neq. intros H. apply strip_empty in H. congruence.
Qed.

Lemma remove_all_space c s :
  is_space c = false -> all_space s = true -> replace_char c "" s = s.
Proof.
  intros Hc. induction s as [|a t IH]; [reflexivity|]. simpl.
  intros H. apply andb_prop in H. destruct H as [Ha Ht].
  destruct (Ascii.eqb_spec a c) as [-> | _]; [congruence|].
  now rewrite (IH Ht).
Qed.

Lemma remove_idem c s : replace_char c "" (replace_char c "" s) = replace_char c "" s.
Proof.
  induction s as [|a t IH]; [reflexivity|]. simpl.
  destruct (Ascii.eqb a c) eqn:E; simpl; [exact IH|]. now rewrite E, IH.
Qed.

Lemma remove_comm c d s :
  replace_char c "" (replace_char d "" s) = replace_char d "" (replace_char c "" s).
Proof.
  induction s as [|a t IH]; [reflexivity|]. simpl.
  destruct (Ascii.eqb a d) eqn:Ed, (Ascii.eqb a c) eqn:Ec; simpl;
    rewrite ?Ed, ?Ec; simpl; now rewrite IH.
Qed.

Lemma float_blank s : all_space s = true -> PyFloat.float s = None.
Proof.
  intros H. apply strip_empty in H. unfold PyFloat.float. now rewrite H.
Qed.

(** The price parsed from a text that is not blank. *)
Lemma clean_price_value_eq v :
  clean_price_value v =
  if all_space v then None
  else PyFloat.float (strip (replace_char "," "" (replace_char "$" "" v))).
Proof. unfold clean_price_value. now rewrite blank_all_space. Qed.

Lemma clean_after_removal c v :
  (c = "$" \/ c = ",")%char ->
  clean_price_value (replace_char c "" v) = clean_price_value v.
Proof.
  intros Hc.
  assert (is_space c = false) as Hsp by (destruct Hc as [-> | ->]; reflexivity).
  assert (replace_char "," "" (replace_char "$" "" (replace_char c "" v)) =
          replace_char "," "" (replace_char "$" "" v)) as Hrm.
  { destruct Hc as [-> | ->].
    - now rewrite remove_idem.
    - now rewrite (remove_comm "$" ","), remove_idem. }
  rewrite !clean_price_value_eq, Hrm.
  destruct (all_space v) eqn:Ev.
  - now rewrite (remove_all_space c v Hsp Ev), Ev.
  - destruct (all_space (replace_char c "" v)) eqn:Er; [|reflexivity].
    symmetry. apply float_blank. apply strip_empty.
    rewrite <- Hrm.
    rewrite (remove_all_space "$" _ eq_refl Er), (remove_all_space "," _ eq_refl Er).
    apply strip_empty in Er. rewrite Er. reflexivity.
Qed.

End NHMoreFacts.

(* ================================================================== *)
(** ** Facts about accepted rows and about price parsing *)
(* ================================================================== *)

Module NHParseFacts.
Import Py PyFacts NH NHSpec NHSpec2 NHSpec3.


















End NHParseFacts.

(* ================================================================== *)
(** ** Facts about the rows the USFS PNW transforms keep *)
(* ================================================================== *)

Module TransformFacts.
Import PNWTransform IntegrationSpec IntegrationSpec2 IntegrationFacts.

(** A transform appends one row for each priced raw row, in order. *)
Lemma run_steps_Forall2 step rows out :
  (forall row, priced row = false -> step row = Skip) ->
  (forall row, priced row = true -> step row <> Skip) ->
  run_steps step rows = Some out ->
  Forall2 (fun row r => step row = Append r) (filter priced rows) out.
Proof.
  intros Hskip Hkeep. revert out.
  induction rows as [|row rest IH]; intros out H; simpl in H.
  - injection H as <-. constructor.
  - cbn [filter]. destruct (priced row) eqn:Ep.
    + destruct (step row) as [| |r] eqn:Es;
        [now elim (Hkeep row Ep) | discriminate |].
      destruct (run_steps step rest) as [out'|]; [|discriminate].
      injection H as <-. constructor; [exact Es | now apply IH].
    + rewrite (Hskip row Ep) in H. now apply IH.
Qed.

Lemma combined_step_priced round2 df row :
  (priced row = false -> combined_step round2 df row = Skip) /\
  (priced row = true -> combined_step round2 df row <> Skip).
Proof.
  unfold priced, combined_step.
  destruct (raw_price_per_mbf row); split; try discriminate; try reflexivity.
  intros _ H.
  repeat match type of H with
         | context [if ?c then _ else _] => destruct c
         | context [match ?x with _ => _ end] => destruct x
         end; discriminate.
Qed.

Lemma species_step_priced round2 df row :
  (priced row = false -> species_step round2 df row = Skip) /\
  (priced row = true -> species_step round2 df row <> Skip).
Proof.
  unfold priced, species_step.
  destruct (raw_price_per_mbf row); split; try discriminate; try reflexivity.
  intros _ H.
  repeat match type of H with
         | context [if ?c then _ else _] => destruct c
         | context [match ?x with _ => _ end] => destruct x
         end; discriminate.
Qed.

(** The price and the year of an appended row are those of its raw row. *)
Lemma combined_step_link round2 df row r :
  combined_step round2 df row = Append r ->
  price_avg r = raw_price_per_mbf row /\ year r = raw_year row /\
  species r = Some "all_species".
Proof.
  unfold combined_step. intros H.
  destruct (raw_price_per_mbf row); [|discriminate].
  destruct (raw_year row);
    repeat match type of H with
           | context [if ?c then _ else _] => destruct c
           | context [match ?x with _ => _ end] => destruct x
           end; try discriminate H; injection H as <-; repeat split.
Qed.

Lemma species_step_link round2 df row r :
  species_step round2 df row = Append r ->
  price_avg r = raw_price_per_mbf row /\ year r = raw_year row /\
  species r <> None.
Proof.
  unfold species_step. intros H.
  destruct (raw_price_per_mbf row); [|discriminate].
  destruct (raw_species row); [|discriminate].
  destruct (raw_year row);
    repeat match type of H with
           | context [if ?c then _ else _] => destruct c
           | context [match ?x with _ => _ end] => destruct x
           end; try discriminate H; injection H as <-; repeat split; discriminate.
Qed.

Lemma Forall2_weaken {A B} (P Q : A -> B -> Prop) l l' :
  (forall a b, P a b -> Q a b) -> Forall2 P l l' -> Forall2 Q l l'.
Proof. intros H. induction 1; constructor; auto. Qed.

End TransformFacts.

(* ================================================================== *)
(** ** The properties of the harmonisation pipeline *)
(* ================================================================== *)

Import Py Normalizer Converter.

(** *** Deduplication *)

(** C1 (as stated, refuted): the table written by [main] for [sample_fs]
    holds two rows with the same (source, year, quarter, region, species,
    product_type) key; the row with one price field is kept next to the
    row with three. *)
Lemma unified_keys_not_unique :
  exists out a b,
    Engine.main Samples.sample_fs = Some out /\
    In a out /\ In b out /\
    dedup_key a = dedup_key b /\
    price_field_count a = 1%nat /\ price_field_count b = 3%nat /\
    ~ NoDup (map dedup_key out).
Proof.
  eexists. eexists. eexists.
  split; [vm_compute; reflexivity|].
  split; [right; right; left; reflexivity|].
  split; [right; right; right; left; reflexivity|].
  split; [reflexivity|]. split; [reflexivity|]. split; [reflexivity|].
  intros H. simpl in H.
  apply NoDup_cons_iff in H. destruct H as [_ H].
  apply NoDup_cons_iff in H. destruct H as [_ H].
  apply NoDup_cons_iff in H. destruct H as [H _].
  apply H. left. reflexivity.
Qed.

(** C1 (amended): the keys of the table [main] writes are the keys of the
    loaded rows, in loading order, so each key is kept as often as the
    adapters produced it; the USFS PNW merge de-duplicates the rows it
    concatenates on (source, year, species, region): each such key then
    occurs once, the row kept for a key is the one concatenated last,
    whatever its price fields, and no key is lost. *)
Theorem engine_keeps_rows_pnw_keeps_last :
  (forall fs out,
      Engine.main fs = Some out ->
      map dedup_key out = map dedup_key (List.concat (Engine.load_all fs))) /\
  (forall combined_unified species_unified,
      let merged := PNW.usfs_pnw_unified combined_unified species_unified in
      NoDup (map PNW.subset_key merged) /\
      (forall r,
          In r merged <->
          exists before after,
            (combined_unified ++ species_unified)%list = (before ++ r :: after)%list /\
            forall later, In later after -> PNW.subset_key later <> PNW.subset_key r) /\
      (forall r,
          In r (combined_unified ++ species_unified)%list ->
          exists r', In r' merged /\ PNW.subset_key r' = PNW.subset_key r)).
Proof.
  split.
  - intros fs out H. rewrite (EngineFacts.main_spec fs out H), map_map.
    apply map_ext. intros r. apply ConverterFacts.dedup_key_convert_row.
  - intros c s merged. unfold merged, PNW.usfs_pnw_unified. split; [|split].
    + apply PNWFacts.drop_duplicates_last_NoDup.
    + intros r. apply PNWFacts.drop_duplicates_last_In.
    + intros r. apply PNWFacts.drop_duplicates_last_keeps_keys.
Qed.

Lemma engine_keeps_rows_pnw_keeps_last_witness :
  map dedup_key Samples.sample_out =
  map dedup_key (List.concat (Engine.load_all Samples.sample_fs)) /\
  In Samples.pnw_species_row
     (PNW.usfs_pnw_unified [Samples.pnw_combined_row] [Samples.pnw_species_row]).
Proof.
  split.
  - apply (proj1 engine_keeps_rows_pnw_keeps_last Samples.sample_fs).
    vm_compute. reflexivity.
  - apply (proj2 engine_keeps_rows_pnw_keeps_last
             [Samples.pnw_combined_row] [Samples.pnw_species_row]).
    exists [Samples.pnw_combined_row], []. split; [reflexivity|].
    intros later [].
Defined.

(** *** Normaliser *)

(** C2 (defect of the code): [standardize_product_type] is not idempotent.
    The text "fiber" is sent to the canonical name [fiber_fuel], and that
    name, which contains "fuel", is sent to [firewood] by the earlier
    firewood rule; a product written "Fiber/Fuel" never reaches the
    fiber rule either. *)
Theorem standardize_product_type_not_idempotent :
  standardize_product_type (Some "fiber") = Some "fiber_fuel" /\
  standardize_product_type (standardize_product_type (Some "fiber")) = Some "firewood" /\
  standardize_product_type (Some "Fiber/Fuel") = Some "firewood".
Proof. repeat split; reflexivity. Qed.

(** C9 (as stated, refuted): a product text and a unit text that match no
    rule, neither as written nor in normal form, are not returned
    unchanged: they come back lower-cased and trimmed. *)
Lemma passthrough_changes_text :
  product_rule_matches "Mystery_Product_XYZ" = false /\
  product_rule_matches (strip (lower "Mystery_Product_XYZ")) = false /\
  standardize_product_type (Some "Mystery_Product_XYZ") = Some "mystery_product_xyz" /\
  standardize_product_type (Some "Mystery_Product_XYZ") <> Some "Mystery_Product_XYZ" /\
  unit_rule_matches " Index " = false /\
  unit_rule_matches (strip (lower " Index ")) = false /\
  standardize_unit (Some " Index ") = Some "index" /\
  standardize_unit (Some " Index ") <> Some " Index ".
Proof. repeat split; try reflexivity; vm_compute; discriminate. Qed.

(** C9 (amended): for a text whose lower-cased, trimmed form matches no
    rule, [standardize_product_type] and [standardize_unit] return that
    lower-cased, trimmed form; a text already in that form, such as the
    index marker, is returned unchanged; a missing value stays missing.
    Both functions are total. *)
Theorem passthrough_normal_form :
  forall s,
    (product_rule_matches (strip (lower s)) = false ->
     standardize_product_type (Some s) = Some (strip (lower s))) /\
    (unit_rule_matches (strip (lower s)) = false ->
     standardize_unit (Some s) = Some (strip (lower s))) /\
    (strip (lower s) = s -> product_rule_matches s = false ->
     standardize_product_type (Some s) = Some s) /\
    (strip (lower s) = s -> unit_rule_matches s = false ->
     standardize_unit (Some s) = Some s) /\
    standardize_unit (Some "index") = Some "index" /\
    standardize_product_type None = None /\ standardize_unit None = None.
Proof.
  intros s.
  assert (forall u, unit_rule_matches u = false -> classify_unit u = u) as Hu.
  { intros u H. destruct (NormalizerFacts.classify_unit_cases u) as [[H' _] | [_ H']];
      [congruence | exact H']. }
  repeat split.
  - intros H. simpl. f_equal. now apply NormalizerFacts.classify_product_passthrough.
  - intros H. simpl. f_equal. now apply Hu.
  - intros Hs H. simpl. rewrite Hs. f_equal.
    now apply NormalizerFacts.classify_product_passthrough.
  - intros Hs H. simpl. rewrite Hs. f_equal. now apply Hu.
Qed.

Lemma passthrough_normal_form_witness :
  standardize_product_type (Some "Mystery_Product_XYZ") = Some "mystery_product_xyz" /\
  standardize_unit (Some "index") = Some "index".
Proof.
  split.
  - apply (proj1 (passthrough_normal_form "Mystery_Product_XYZ")). reflexivity.
  - apply (proj1 (proj2 (proj2 (proj2 (passthrough_normal_form "index")))));
      reflexivity.
Defined.

(** *** Converter *)

(** C3 (as stated, refuted): a cord-priced row whose species text is empty,
    hence in no species group, gets the factor 2.80 and a price per ton. *)
Lemma unknown_species_gets_default_factor :
  Registry.known_species_group (str_or_empty (species Samples.cord_row_no_species)) = false /\
  conversion_factor (convert_row Samples.cord_row_no_species) = Some 2.80 /\
  price_per_ton (convert_row Samples.cord_row_no_species) = Some (28.0 / 2.80) /\
  ~ (conversion_factor (convert_row Samples.cord_row_no_species) = None /\
     price_per_ton (convert_row Samples.cord_row_no_species) = None).
Proof.
  repeat split; try reflexivity.
  intros [H _]. vm_compute in H. discriminate.
Qed.

(** C3 (amended): when the species text names no known species group the
    converter falls back on the default factors: 1.0 for a unit holding
    "ton", else 2.80 tons per cord (mixed hardwood) for a unit holding
    "cord", else 8.5 tons per MBF (hardwood average) for a unit holding
    "mbf"; the factor and the price per ton are null only for a unit
    holding none of the three. *)
Theorem unknown_species_conversion :
  forall r,
    Registry.known_species_group (str_or_empty (species r)) = false ->
    let u := lower_or_empty (unit r) in
    let r' := convert_row r in
    (contains "ton" u = true ->
     conversion_factor r' = Some 1.0 /\ price_per_ton r' = price_avg r) /\
    (contains "ton" u = false -> contains "cord" u = true ->
     conversion_factor r' = Some 2.80 /\
     price_per_ton r' = option_map (fun p => p / 2.80) (price_avg r)) /\
    (contains "ton" u = false -> contains "cord" u = false -> contains "mbf" u = true ->
     conversion_factor r' = Some 8.5 /\
     price_per_ton r' = option_map (fun p => p / 8.5) (price_avg r)) /\
    (contains "ton" u = false -> contains "cord" u = false -> contains "mbf" u = false ->
     conversion_factor r' = None /\ price_per_ton r' = None).
Proof.
  intros r Hk u r'. unfold u, r'.
  rewrite ConverterFacts.conversion_factor_convert_row,
    ConverterFacts.price_per_ton_convert_row.
  unfold Registry.known_species_group in Hk.
  apply orb_false_elim in Hk. destruct Hk as [Hk H4].
  apply orb_false_elim in Hk. destruct Hk as [Hk H3].
  apply orb_false_elim in Hk. destruct Hk as [H1 H2].
  unfold get_conversion_factor, convert_price,
    Registry.get_cord_to_ton_factor, Registry.get_mbf_to_ton_factor.
  cbn [conversion_factor set_conversion_factor unit price_avg].
  rewrite H1, H2, H3, H4.
  repeat split; intros; destruct (price_avg r);
    repeat match goal with H : contains _ _ = _ |- _ => rewrite H end;
    try destruct (contains "index" (lower_or_empty (unit r)));
    reflexivity.
Qed.

Lemma unknown_species_conversion_witness :
  conversion_factor (convert_row Samples.cord_row_no_species) = Some 2.80 /\
  price_per_ton (convert_row Samples.cord_row_no_species) =
  option_map (fun p => p / 2.80) (price_avg Samples.cord_row_no_species).
Proof.
  apply (unknown_species_conversion Samples.cord_row_no_species); reflexivity.
Defined.

(** C4: in the table [main] writes, a row whose unit is ['$/ton'] has the
    conversion factor 1.0 and its average price as price per ton, and the
    rows whose factor equals 1.0 are exactly the rows in ['$/ton']. *)
Theorem ton_unit_invariant :
  forall fs out r,
    Engine.main fs = Some out -> In r out ->
    (unit r = Some "$/ton" ->
     conversion_factor r = Some 1.0 /\ price_per_ton r = price_avg r) /\
    ((exists f, conversion_factor r = Some f /\ f == 1.0) <-> unit r = Some "$/ton").
Proof.
  intros fs out r Hm Hin.
  destruct (EngineFacts.main_rows fs out r Hm Hin) as [r0 [-> [Hu _]]].
  rewrite ConverterFacts.unit_convert_row. split.
  - intros H. change (price_avg (convert_row r0)) with (price_avg r0).
    apply ConverterFacts.convert_row_ton. now rewrite H.
  - rewrite ConverterFacts.conversion_factor_convert_row,
      ConverterFacts.get_conversion_factor_one.
    split.
    + now apply ConverterFacts.adapter_unit_ton.
    + intros ->. reflexivity.
Qed.

Lemma ton_unit_invariant_witness :
  unit Samples.mn_out = Some "$/ton" /\
  conversion_factor Samples.mn_out = Some 1.0 /\
  price_per_ton Samples.mn_out = price_avg Samples.mn_out /\
  exists f, conversion_factor Samples.mn_out = Some f /\ f == 1.0.
Proof.
  assert (Engine.main Samples.sample_fs = Some Samples.sample_out) as Hm
    by (vm_compute; reflexivity).
  assert (In Samples.mn_out Samples.sample_out) as Hin
    by (vm_compute; right; left; reflexivity).
  destruct (ton_unit_invariant Samples.sample_fs Samples.sample_out Samples.mn_out Hm Hin)
    as [Hton Hone].
  split; [reflexivity|].
  split; [apply Hton; reflexivity|].
  split; [apply Hton; reflexivity|].
  apply Hone. reflexivity.
Defined.

(** C5: in the table [main] writes, a row whose unit is ['index'] has no
    conversion factor and no price per ton. *)
Theorem index_unit_invariant :
  forall fs out r,
    Engine.main fs = Some out -> In r out ->
    unit r = Some "index" ->
    conversion_factor r = None /\ price_per_ton r = None.
Proof.
  intros fs out r Hm Hin.
  destruct (EngineFacts.main_rows fs out r Hm Hin) as [r0 [-> _]].
  rewrite ConverterFacts.unit_convert_row.
  apply ConverterFacts.convert_row_index.
Qed.

Lemma index_unit_invariant_witness :
  conversion_factor Samples.mi_out = None /\ price_per_ton Samples.mi_out = None.
Proof.
  apply (index_unit_invariant Samples.sample_fs Samples.sample_out Samples.mi_out).
  - vm_compute. reflexivity.
  - vm_compute. left. reflexivity.
  - reflexivity.
Defined.

(** C10: every row of the Michigan adapter has source ['MI'] and unit
    ['index'], and every row of source ['MI'] in the table [main] writes
    has unit ['index'], no conversion factor and no price per ton. *)
Theorem michigan_rows_are_index :
  (forall fs df r,
      Adapters.load_michigan fs = Some df -> In r df ->
      source r = "MI" /\ unit r = Some "index") /\
  (forall fs out r,
      Engine.main fs = Some out -> In r out -> source r = "MI" ->
      unit r = Some "index" /\ conversion_factor r = None /\ price_per_ton r = None).
Proof.
  split.
  - exact EngineFacts.load_michigan_rows.
  - intros fs out r Hm Hin Hs.
    destruct (EngineFacts.main_rows fs out r Hm Hin) as [r0 [-> [_ Hmi]]].
    rewrite ConverterFacts.source_convert_row in Hs.
    rewrite ConverterFacts.unit_convert_row.
    split; [exact (Hmi Hs)|].
    apply ConverterFacts.convert_row_index. exact (Hmi Hs).
Qed.

Lemma michigan_rows_are_index_witness :
  unit Samples.mi_out = Some "index" /\
  conversion_factor Samples.mi_out = None /\ price_per_ton Samples.mi_out = None.
Proof.
  apply (proj2 michigan_rows_are_index Samples.sample_fs Samples.sample_out Samples.mi_out).
  - vm_compute. reflexivity.
  - vm_compute. left. reflexivity.
  - reflexivity.
Defined.

(** *** Further properties of the converter, the normaliser and the engine *)

(** X1: the two conversion passes of [main] give a row the price that
    [convert_to_per_ton] computes from its average price, unit, species
    and product type. *)
Theorem convert_to_per_ton_agrees :
  forall r,
    price_per_ton (convert_row r) =
    RegistryConv.convert_to_per_ton (price_avg r) (unit r) (species r) (product_type r).
Proof.
  intros r. rewrite ConverterFacts.price_per_ton_convert_row.
  unfold convert_price, get_conversion_factor, RegistryConv.convert_to_per_ton.
  cbn [price_avg unit conversion_factor set_conversion_factor].
  change (match unit r with Some u => lower u | None => "" end)
    with (lower_or_empty (unit r)).
  change (RegistryConv.species_text (species r)) with (str_or_empty (species r)).
  destruct (price_avg r) as [p|]; [|reflexivity].
  destruct (contains "ton" (lower_or_empty (unit r))); [reflexivity|].
  destruct (contains "cord" (lower_or_empty (unit r))); [reflexivity|].
  destruct (contains "mbf" (lower_or_empty (unit r))); [reflexivity|].
  now destruct (contains "index" (lower_or_empty (unit r))).
Qed.

(** X2: converting a converted row again changes nothing. *)
Theorem conversion_idempotent :
  forall r, convert_row (convert_row r) = convert_row r.
Proof.
  intros r. unfold convert_row, set_price_per_ton, set_conversion_factor.
  cbn [source year quarter period_type region county species product_type
       price_avg price_low price_high unit price_per_ton conversion_factor
       sample_size notes].
  reflexivity.
Qed.

(** X3: a converted row has a price per ton exactly when it has an average
    price and a conversion factor; the factor, when there is one, is one of
    seven positive constants, so no price is divided by zero. *)
Theorem price_per_ton_defined_iff :
  forall r,
    (price_per_ton (convert_row r) <> None <->
     price_avg r <> None /\ conversion_factor (convert_row r) <> None) /\
    (forall f, conversion_factor (convert_row r) = Some f ->
               In f [1.0; 2.67; 2.90; 2.70; 2.80; 7.0; 8.5] /\ 0 < f).
Proof.
  intros r.
  assert (forall f, get_conversion_factor r = Some f ->
                    In f [1.0; 2.67; 2.90; 2.70; 2.80; 7.0; 8.5]) as Hin.
  { unfold get_conversion_factor, Registry.get_cord_to_ton_factor,
      Registry.get_mbf_to_ton_factor.
    intros f H.
    repeat match type of H with
           | (if ?c then _ else _) = _ => destruct c
           | Some (if ?c then _ else _) = _ => destruct c
           end;
      try discriminate; injection H as <-; simpl; tauto. }
  split.
  - rewrite ConverterFacts.price_per_ton_convert_row,
      ConverterFacts.conversion_factor_convert_row.
    unfold convert_price, get_conversion_factor.
    cbn [price_avg unit conversion_factor set_conversion_factor].
    destruct (price_avg r) as [p|]; [|intuition congruence].
    destruct (contains "ton" (lower_or_empty (unit r))); [intuition congruence|].
    destruct (contains "cord" (lower_or_empty (unit r))); [simpl; intuition congruence|].
    destruct (contains "mbf" (lower_or_empty (unit r))); [simpl; intuition congruence|].
    destruct (contains "index" (lower_or_empty (unit r))); intuition congruence.
  - intros f H. rewrite ConverterFacts.conversion_factor_convert_row in H.
    split; [now apply Hin|].
    specialize (Hin f H). simpl in Hin.
    repeat (destruct Hin as [<- | Hin]; [reflexivity|]). contradiction.
Qed.

Lemma price_per_ton_defined_iff_witness :
  In 2.80 [1.0; 2.67; 2.90; 2.70; 2.80; 7.0; 8.5] /\ 0 < 2.80.
Proof.
  apply (proj2 (price_per_ton_defined_iff Samples.cord_row_no_species)).
  reflexivity.
Defined.

(** X4: in the table [main] writes, the rows with a conversion factor are
    exactly the rows whose unit is ['$/ton'], ['$/cord'] or ['$/mbf']. *)
Theorem factor_defined_on_canonical_units :
  forall fs out r,
    Engine.main fs = Some out -> In r out ->
    (conversion_factor r <> None <->
     In (unit r) [Some "$/ton"; Some "$/cord"; Some "$/mbf"]).
Proof.
  intros fs out r Hm Hin.
  destruct (EngineFacts.main_rows fs out r Hm Hin) as [r0 [-> [Hu _]]].
  rewrite ConverterFacts.unit_convert_row,
    ConverterFacts.conversion_factor_convert_row.
  destruct (ShapeFacts.adapter_unit_cases (unit r0) Hu) as [H | (Ht & Hc & Hb & Hno)].
  - split; [intros _; exact H|]. intros _.
    unfold get_conversion_factor.
    simpl in H. destruct H as [H | [H | [H | []]]]; rewrite <- H; simpl; discriminate.
  - unfold get_conversion_factor. rewrite Ht, Hc, Hb.
    split.
    + intros H. exfalso. apply H.
      now destruct (contains "index" (lower_or_empty (unit r0))).
    + intros H. now elim Hno.
Qed.

Lemma factor_defined_on_canonical_units_witness :
  conversion_factor Samples.mn_out <> None /\
  ~ In (unit Samples.mi_out) [Some "$/ton"; Some "$/cord"; Some "$/mbf"].
Proof.
  assert (Engine.main Samples.sample_fs = Some Samples.sample_out) as Hm
    by (vm_compute; reflexivity).
  split.
  - apply (factor_defined_on_canonical_units Samples.sample_fs Samples.sample_out
             Samples.mn_out Hm).
    + vm_compute. right. left. reflexivity.
    + vm_compute. left. reflexivity.
  - intros H.
    apply (factor_defined_on_canonical_units Samples.sample_fs Samples.sample_out
             Samples.mi_out Hm) in H.
    + apply H. reflexivity.
    + vm_compute. left. reflexivity.
Defined.

(** X5: both normalising functions ignore letter case and surrounding
    white space. *)
Theorem normaliser_ignores_case_and_padding :
  forall s,
    standardize_product_type (Some (upper s)) = standardize_product_type (Some s) /\
    standardize_product_type (Some (strip s)) = standardize_product_type (Some s) /\
    standardize_unit (Some (upper s)) = standardize_unit (Some s) /\
    standardize_unit (Some (strip s)) = standardize_unit (Some s).
Proof.
  intros s. simpl.
  rewrite ShapeFacts.lower_upper, ShapeFacts.strip_lower_strip. repeat split.
Qed.

(** X6: what the normalising functions return is lower-case and trimmed,
    and so are the unit and the product type of every row [main] writes. *)
Theorem text_columns_normal :
  (forall x, Shape.normal_text (standardize_product_type x) /\
             Shape.normal_text (standardize_unit x)) /\
  (forall fs out r,
      Engine.main fs = Some out -> In r out ->
      Shape.normal_text (unit r) /\ Shape.normal_text (product_type r)).
Proof.
  split.
  - intros x. split.
    + apply ShapeFacts.standardize_product_type_normal.
    + apply ShapeFacts.standardize_unit_normal.
  - intros fs out r Hm Hin.
    destruct (ShapeFacts.main_rows_inv _ ShapeFacts.loaders_shape fs out r Hm Hin)
      as [r0 [-> [_ Hn]]].
    exact Hn.
Qed.

Lemma text_columns_normal_witness :
  Shape.normal_text (unit Samples.mn_out) /\ Shape.normal_text (product_type Samples.mn_out).
Proof.
  apply (proj2 text_columns_normal Samples.sample_fs Samples.sample_out Samples.mn_out).
  - vm_compute. reflexivity.
  - vm_compute. right. left. reflexivity.
Defined.

(** X7: applying [standardize_unit] twice is the same as applying it once,
    and so it is for [standardize_product_type] on every input it does not
    send to ['fiber_fuel']. *)
Theorem normaliser_reapplication :
  (forall x, standardize_unit (standardize_unit x) = standardize_unit x) /\
  (forall x,
      standardize_product_type x <> Some "fiber_fuel" ->
      standardize_product_type (standardize_product_type x) = standardize_product_type x).
Proof.
  split.
  - intros [u|]; simpl; [|reflexivity].
    f_equal. apply NormalizerFacts.classify_unit_fixed, PyFacts.normal_idem.
  - intros [p|] Hne; simpl in *; [|reflexivity]. f_equal.
    destruct (NormalizerFacts.classify_product_cases (strip (lower p))) as [[_ Hin] | [Hm Hp]].
    + simpl in Hin.
      repeat (destruct Hin as [Hin | Hin];
              [ rewrite <- Hin in *; try reflexivity; exfalso; apply Hne; reflexivity | ]).
      contradiction.
    + rewrite Hp, PyFacts.normal_idem. exact Hp.
Qed.

Lemma normaliser_reapplication_witness :
  standardize_product_type (standardize_product_type (Some "Pine Sawlogs, Large")) =
  standardize_product_type (Some "Pine Sawlogs, Large").
Proof.
  apply (proj2 normaliser_reapplication (Some "Pine Sawlogs, Large")).
  vm_compute. discriminate.
Defined.

(** X8: the cord and MBF factors depend on the species text alone, and on
    it regardless of letter case: the product type plays no part. *)
Theorem registry_factor_by_species_only :
  forall species pt pt',
    Registry.get_cord_to_ton_factor (upper species) pt =
    Registry.get_cord_to_ton_factor species pt' /\
    Registry.get_mbf_to_ton_factor (upper species) pt =
    Registry.get_mbf_to_ton_factor species pt'.
Proof.
  intros sp pt pt'.
  unfold Registry.get_cord_to_ton_factor, Registry.get_mbf_to_ton_factor.
  rewrite ShapeFacts.lower_upper. split; reflexivity.
Qed.

(** X9: [main] writes nothing exactly when no adapter yields a row, be it
    that its file is missing, that it raised, or that its frame is empty. *)
Theorem main_fails_iff_no_data :
  forall fs,
    Engine.main fs = None <->
    (forall name loader,
        In (name, loader) Adapters.loaders ->
        loader fs = None \/ loader fs = Some []).
Proof.
  intros fs. unfold Engine.main, Engine.load_all.
  rewrite ShapeFacts.load_loop_flat_map. cbn [app].
  generalize Adapters.loaders. intros ls.
  induction ls as [|[n l] ls IH].
  - simpl. split; [intros _ ? ? [] | reflexivity].
  - cbn [flat_map snd].
    destruct (l fs) as [[|x d]|] eqn:El; cbn [app].
    + rewrite IH. split.
      * intros H name loader [E | Hin]; [injection E as _ <-; now right | now apply (H name)].
      * intros H name loader Hin. apply (H name). now right.
    + split; [discriminate|]. intros H.
      destruct (H n l (or_introl eq_refl)) as [E | E]; congruence.
    + rewrite IH. split.
      * intros H name loader [E | Hin]; [injection E as _ <-; now left | now apply (H name)].
      * intros H name loader Hin. apply (H name). now right.
Qed.

Lemma main_fails_iff_no_data_witness :
  Engine.main (fun _ => None) = None.
Proof.
  apply (proj2 (main_fails_iff_no_data (fun _ => None))).
  intros name loader Hin. right.
  unfold Adapters.loaders in Hin. simpl in Hin.
  repeat (destruct Hin as [Hin | Hin]; [injection Hin as _ <-; reflexivity|]).
  contradiction.
Defined.

(** X10: every row [main] writes carries the source code of one of the
    sixteen adapters together with that adapter's period type; annual rows
    have no quarter, and the quarter of a New York row, read off the
    season, is 1 to 4 or missing. *)
Theorem source_and_period_of_rows :
  forall fs out r,
    Engine.main fs = Some out -> In r out ->
    In (source r, period_type r) Shape.source_periods /\
    (period_type r = "annual" -> quarter r = None) /\
    (source r = "NY" -> In (quarter r) [None; Some 1%Z; Some 2%Z; Some 3%Z; Some 4%Z]).
Proof.
  intros fs out r Hm Hin.
  destruct (ShapeFacts.main_rows_inv _ ShapeFacts.loaders_shape fs out r Hm Hin)
    as [r0 [-> [(H1 & H2 & H3 & _) _]]].
  repeat split; assumption.
Qed.

Lemma source_and_period_of_rows_witness :
  In (source Samples.mn_out, period_type Samples.mn_out) Shape.source_periods /\
  (period_type Samples.mn_out = "annual" -> quarter Samples.mn_out = None) /\
  (source Samples.mn_out = "NY" ->
   In (quarter Samples.mn_out) [None; Some 1%Z; Some 2%Z; Some 3%Z; Some 4%Z]).
Proof.
  apply (source_and_period_of_rows Samples.sample_fs Samples.sample_out Samples.mn_out).
  - vm_compute. reflexivity.
  - vm_compute. right. left. reflexivity.
Defined.

(** X11: in the table [main] writes only Georgia rows have a county; the
    rows of Michigan, Minnesota, Wisconsin, Vermont, Georgia, Louisiana and
    Texas have no price range; Minnesota and Georgia rows are statewide;
    Wisconsin rows are priced per cord. *)
Theorem source_specific_columns :
  forall fs out r,
    Engine.main fs = Some out -> In r out ->
    (county r <> None -> source r = "GA") /\
    (In (source r) Shape.sources_without_range ->
     price_low r = None /\ price_high r = None) /\
    (In (source r) ["MN"; "GA"] -> region r = Some "Statewide") /\
    (source r = "WI" -> unit r = Some "$/cord").
Proof.
  intros fs out r Hm Hin.
  destruct (ShapeFacts.main_rows_inv _ ShapeFacts.loaders_shape fs out r Hm Hin)
    as [r0 [-> [(_ & _ & _ & H4 & H5 & H6 & H7 & _) _]]].
  repeat split; try assumption; now apply H5.
Qed.

Lemma source_specific_columns_witness :
  price_low Samples.mn_out = None /\ price_high Samples.mn_out = None.
Proof.
  apply (source_specific_columns Samples.sample_fs Samples.sample_out Samples.mn_out).
  - vm_compute. reflexivity.
  - vm_compute. right. left. reflexivity.
  - vm_compute. right. left. reflexivity.
Defined.

(** X12: the rows of one source in the table [main] writes are the rows of
    that source's adapter, converted, in the adapter's order: no file of
    another source adds, removes or changes them. *)
Theorem rows_of_a_source :
  forall code loader,
    In (code, loader) Shape.loader_codes ->
    forall fs out,
      Engine.main fs = Some out ->
      filter (fun r => source r =? code) out =
      map convert_row (Shape.rows_of (loader fs)).
Proof.
  intros code loader Hl fs out Hm.
  rewrite (EngineFacts.main_spec fs out Hm), ShapeFacts.all_rows_flat_map.
  assert (forall l, filter (fun r => source r =? code) (map convert_row l) =
                    map convert_row (filter (fun r => source r =? code) l)) as Hf.
  { induction l as [|x l IH]; [reflexivity|]. simpl.
    destruct (source x =? code); simpl; now rewrite IH. }
  rewrite Hf. f_equal.
  unfold Adapters.loaders. cbn [flat_map snd].
  rewrite !filter_app.
  rewrite (ShapeFacts.filter_source_piece fs "MI" Adapters.load_michigan code),
    (ShapeFacts.filter_source_piece fs "MN" Adapters.load_minnesota code),
    (ShapeFacts.filter_source_piece fs "WI" Adapters.load_wisconsin code),
    (ShapeFacts.filter_source_piece fs "NY" Adapters.load_new_york code),
    (ShapeFacts.filter_source_piece fs "PA" Adapters.load_pennsylvania code),
    (ShapeFacts.filter_source_piece fs "VT" Adapters.load_vermont code),
    (ShapeFacts.filter_source_piece fs "ME" Adapters.load_maine code),
    (ShapeFacts.filter_source_piece fs "AL" Adapters.load_alabama code),
    (ShapeFacts.filter_source_piece fs "AR" Adapters.load_arkansas code),
    (ShapeFacts.filter_source_piece fs "FL" Adapters.load_florida code),
    (ShapeFacts.filter_source_piece fs "GA" Adapters.load_georgia code),
    (ShapeFacts.filter_source_piece fs "LA" Adapters.load_louisiana code),
    (ShapeFacts.filter_source_piece fs "MS" Adapters.load_mississippi code),
    (ShapeFacts.filter_source_piece fs "SC" Adapters.load_south_carolina code),
    (ShapeFacts.filter_source_piece fs "TX" Adapters.load_texas code),
    (ShapeFacts.filter_source_piece fs "WV" Adapters.load_west_virginia code)
    by (unfold Shape.loader_codes; simpl; tauto).
  unfold Shape.loader_codes in Hl. cbn [In] in Hl.
  repeat (destruct Hl as [Hl | Hl];
          [ injection Hl as <- <-;
            repeat match goal with
                   | |- context [?a =? ?b] =>
                       let v := eval vm_compute in (a =? b) in
                       change (a =? b) with v
                   end;
            cbv iota; cbn [app]; rewrite ?app_nil_r; reflexivity | ]).
  contradiction.
Qed.

Lemma rows_of_a_source_witness :
  filter (fun r => source r =? "MN") Samples.sample_out =
  map convert_row (Shape.rows_of (Adapters.load_minnesota Samples.sample_fs)).
Proof.
  apply (rows_of_a_source "MN" Adapters.load_minnesota).
  - unfold Shape.loader_codes. simpl. right. left. reflexivity.
  - vm_compute. reflexivity.
Defined.

(** *** Properties of the USFS PNW integration and of the Tennessee merge *)

(** X13: each transform appends one row for each raw row that has a price,
    in order, and none for a raw row without price.  The row appended for a
    raw row carries its price as [price_avg] and its year; it is an annual
    sawtimber row in ['$/MBF'] with factor 4.0, no quarter, no price range,
    the rounded quarter of its price as price per ton, and notes naming
    USFS PNW.  The rows of the combined file are rows for all species. *)
Theorem usfs_rows_shape :
  forall round2 df out,
    (PNWTransform.transform_combined round2 df = Some out ->
     Forall2 (fun raw r =>
                price_avg r = PNWTransform.raw_price_per_mbf raw /\
                year r = PNWTransform.raw_year raw /\
                IntegrationSpec.usfs_shape round2 r /\
                species r = Some "all_species")
             (filter IntegrationSpec2.priced (PNWTransform.raw_rows df)) out) /\
    (PNWTransform.transform_species round2 df = Some out ->
     Forall2 (fun raw r =>
                price_avg r = PNWTransform.raw_price_per_mbf raw /\
                year r = PNWTransform.raw_year raw /\
                IntegrationSpec.usfs_shape round2 r /\
                species r <> None)
             (filter IntegrationSpec2.priced (PNWTransform.raw_rows df)) out).
Proof.
  intros round2 df out. split; intros H.
  - apply (TransformFacts.Forall2_weaken
             (fun raw r => PNWTransform.combined_step round2 df raw = PNWTransform.Append r)).
    + intros raw r Hs.
      destruct (TransformFacts.combined_step_link round2 df raw r Hs) as (Hp & Hy & Hsp).
      split; [exact Hp|]. split; [exact Hy|]. split; [|exact Hsp].
      exact (IntegrationFacts.combined_step_shape round2 df raw r Hs).
    + apply TransformFacts.run_steps_Forall2; [| |exact H]; intros raw;
        apply (TransformFacts.combined_step_priced round2 df raw).
  - apply (TransformFacts.Forall2_weaken
             (fun raw r => PNWTransform.species_step round2 df raw = PNWTransform.Append r)).
    + intros raw r Hs.
      destruct (TransformFacts.species_step_link round2 df raw r Hs) as (Hp & Hy & Hsp).
      split; [exact Hp|]. split; [exact Hy|]. split; [|exact Hsp].
      exact (IntegrationFacts.species_step_shape round2 df raw r Hs).
    + apply TransformFacts.run_steps_Forall2; [| |exact H]; intros raw;
        apply (TransformFacts.species_step_priced round2 df raw).
Qed.

Lemma usfs_rows_shape_witness :
  Forall2 (fun raw r =>
             price_avg r = PNWTransform.raw_price_per_mbf raw /\
             year r = PNWTransform.raw_year raw /\
             IntegrationSpec.usfs_shape MoreSamples.round_exact r /\
             species r = Some "all_species")
          (filter IntegrationSpec2.priced (PNWTransform.raw_rows MoreSamples.combined_frame))
          MoreSamples.combined_unified /\
  List.length MoreSamples.combined_unified = 1%nat.
Proof.
  assert (PNWTransform.transform_combined MoreSamples.round_exact MoreSamples.combined_frame =
          Some MoreSamples.combined_unified) as H by (vm_compute; reflexivity).
  split.
  - exact (proj1 (usfs_rows_shape MoreSamples.round_exact MoreSamples.combined_frame
                    MoreSamples.combined_unified) H).
  - reflexivity.
Defined.

(** X14: whatever the two raw files hold, after the merge each (source,
    year, quarter, region, species, product_type) tuple occurs at most once
    among the USFS PNW rows. *)
Theorem usfs_keys_unique :
  forall round2 combined_df species_df combined_unified species_unified,
    PNWTransform.transform_combined round2 combined_df = Some combined_unified ->
    PNWTransform.transform_species round2 species_df = Some species_unified ->
    NoDup (map dedup_key (PNW.usfs_pnw_unified combined_unified species_unified)).
Proof.
  intros round2 cdf sdf cu su Hc Hs.
  apply (IntegrationFacts.NoDup_map_through PNW.subset_key dedup_key
           (fun k : PNW.Key =>
              match k with
              | (s, y, sp, reg) => (s, y, @None Z, reg, sp, Some "sawtimber")
              end)).
  - intros [[[s1 y1] sp1] r1] [[[s2 y2] sp2] r2] E. now injection E as -> -> -> ->.
  - intros r Hin. apply PNWFacts.drop_duplicates_last_subset in Hin.
    assert (quarter r = None /\ product_type r = Some "sawtimber") as [Hq Hp].
    { apply in_app_or in Hin. destruct Hin as [Hin | Hin].
      - destruct (IntegrationFacts.transform_combined_shape round2 cdf cu r Hc Hin)
          as (_ & _ & Hp & Hq & _). now split.
      - destruct (IntegrationFacts.transform_species_shape round2 sdf su r Hs Hin)
          as (_ & _ & Hp & Hq & _). now split. }
    unfold dedup_key, PNW.subset_key. now rewrite Hq, Hp.
  - apply PNWFacts.drop_duplicates_last_NoDup.
Qed.

Lemma usfs_keys_unique_witness :
  NoDup (map dedup_key
           (PNW.usfs_pnw_unified MoreSamples.combined_unified MoreSamples.species_unified)).
Proof.
  apply (usfs_keys_unique MoreSamples.round_exact
           MoreSamples.combined_frame MoreSamples.species_frame);
    vm_compute; reflexivity.
Defined.

(** X15: a species row takes its source code from [SUBREGION_TO_STATE]
    when its region is a key of that table, and otherwise from the region
    name with underscores turned into dashes: the branch through
    [REGION_TO_STATES] is never taken.  Its region is the region name with
    underscores turned into spaces. *)
Theorem usfs_species_state_code :
  forall round2 df row r,
    PNWTransform.species_step round2 df row = PNWTransform.Append r ->
    exists reg,
      PNWTransform.raw_region row = Some reg /\
      source r =
        match PNWTransform.dict_get PNWTransform.SUBREGION_TO_STATE reg with
        | Some state => state
        | None => replace_char "_" "-" reg
        end /\
      region r = Some (replace_char "_" " " reg).
Proof.
  intros round2 df row r H. unfold PNWTransform.species_step in H.
  destruct (PNWTransform.raw_price_per_mbf row); [|discriminate].
  destruct (PNWTransform.raw_species row); [|discriminate].
  destruct (PNWTransform.raw_region row) as [reg|].
  - exists reg. split; [reflexivity|].
    unfold PNWTransform.dict_has in H. cbn [PNWTransform.cell_str] in H.
    destruct (PNWTransform.dict_get PNWTransform.SUBREGION_TO_STATE reg) as [st|] eqn:E.
    + destruct (PNWTransform.raw_year row); [|discriminate].
      injection H as <-. split; reflexivity.
    + rewrite (IntegrationFacts.region_keys_covered reg E) in H.
      destruct (PNWTransform.raw_year row); [|discriminate].
      injection H as <-. split; reflexivity.
  - exfalso. cbn in H.
    destruct (PNWTransform.dict_get PNWTransform.SPECIES_MAP s); discriminate.
Qed.

Lemma usfs_species_state_code_witness :
  exists r,
    In r MoreSamples.species_unified /\ source r = "Yukon-Flats" /\
    region r = Some "Yukon Flats".
Proof.
  eexists. split; [right; left; reflexivity|].
  match goal with
  | |- source ?r = _ /\ _ =>
      destruct (usfs_species_state_code MoreSamples.round_exact MoreSamples.species_frame
                  (MoreSamples.raw (Some 1990%Z) (Some "Yukon_Flats") None
                     (Some "Paper birch") (Some 35) (Some "Table 9")) r eq_refl)
        as [reg [Hreg [Hs Hr]]]
  end.
  injection Hreg as <-. split; [exact Hs | exact Hr].
Defined.

(** X16: merging merged rows again changes nothing. *)
Theorem pnw_merge_idempotent :
  forall combined_unified species_unified,
    PNW.usfs_pnw_unified (PNW.usfs_pnw_unified combined_unified species_unified) [] =
    PNW.usfs_pnw_unified combined_unified species_unified.
Proof.
  intros c s. unfold PNW.usfs_pnw_unified. rewrite app_nil_r.
  apply IntegrationFacts.drop_duplicates_last_fixed, PNWFacts.drop_duplicates_last_NoDup.
Qed.

(** The parts of an integrated table. *)
Lemma integrate_parts :
  forall round2 existing_df combined_df species_df out,
    PNWTransform.integrate round2 existing_df combined_df species_df = Some out ->
    exists combined_unified species_unified,
      PNWTransform.transform_combined round2 combined_df = Some combined_unified /\
      PNWTransform.transform_species round2 species_df = Some species_unified /\
      filter (fun r => negb (PNWTransform.is_usfs_row r)) out =
      filter (fun r => negb (PNWTransform.is_usfs_row r)) existing_df /\
      filter PNWTransform.is_usfs_row out =
      PNW.usfs_pnw_unified combined_unified species_unified.
Proof.
  intros round2 e cdf sdf out H. unfold PNWTransform.integrate in H.
  destruct (PNWTransform.transform_combined round2 cdf) as [cu|] eqn:Hc; [|discriminate].
  destruct (PNWTransform.transform_species round2 sdf) as [su|] eqn:Hs; [|discriminate].
  exists cu, su. split; [reflexivity|]. split; [reflexivity|].
  assert (forall r, In r (PNW.usfs_pnw_unified cu su) ->
                    PNWTransform.is_usfs_row r = true) as Hu.
  { intros r Hin. apply PNWFacts.drop_duplicates_last_subset in Hin.
    apply in_app_or in Hin. destruct Hin as [Hin | Hin].
    - now destruct (IntegrationFacts.transform_combined_shape round2 cdf cu r Hc Hin)
        as (_ & _ & _ & _ & _ & _ & _ & _ & _ & Hn).
    - now destruct (IntegrationFacts.transform_species_shape round2 sdf su r Hs Hin)
        as (_ & _ & _ & _ & _ & _ & _ & _ & _ & Hn). }
  destruct (PNW.usfs_pnw_unified cu su) as [|x l] eqn:E; [discriminate|].
  destruct (PNWTransform.notes_without_text e); [discriminate|].
  injection H as <-. rewrite !filter_app. split.
  - rewrite IntegrationFacts.filter_idem.
    rewrite (IntegrationFacts.filter_none _ (x :: l)), app_nil_r; [reflexivity|].
    intros r Hr. now rewrite (Hu r Hr).
  - rewrite (IntegrationFacts.filter_none PNWTransform.is_usfs_row
               (filter (fun r => negb (PNWTransform.is_usfs_row r)) e)).
    + cbn [app]. apply forallb_filter_id. apply forallb_forall. exact Hu.
    + intros r Hr. apply filter_In in Hr. destruct Hr as [_ Hr].
      now apply negb_true_iff in Hr.
Qed.

(** X17: an integration that succeeds leaves every row of the existing
    table that is not a USFS PNW row in place, removes the old USFS PNW
    rows, and appends the merged new ones: the USFS PNW rows of the result
    are exactly the new rows. *)
Theorem integration_replaces_usfs_rows :
  forall round2 existing_df combined_df species_df out,
    PNWTransform.integrate round2 existing_df combined_df species_df = Some out ->
    exists combined_unified species_unified,
      PNWTransform.transform_combined round2 combined_df = Some combined_unified /\
      PNWTransform.transform_species round2 species_df = Some species_unified /\
      filter (fun r => negb (PNWTransform.is_usfs_row r)) out =
      filter (fun r => negb (PNWTransform.is_usfs_row r)) existing_df /\
      filter PNWTransform.is_usfs_row out =
      PNW.usfs_pnw_unified combined_unified species_unified.
Proof. exact integrate_parts. Qed.

Lemma integration_replaces_usfs_rows_witness :
  filter (fun r => negb (PNWTransform.is_usfs_row r)) MoreSamples.integrated =
  filter (fun r => negb (PNWTransform.is_usfs_row r)) Samples.sample_out.
Proof.
  destruct (integration_replaces_usfs_rows MoreSamples.round_exact Samples.sample_out
              MoreSamples.combined_frame MoreSamples.species_frame MoreSamples.integrated)
    as (cu & su & _ & _ & H & _).
  - vm_compute. reflexivity.
  - exact H.
Defined.

(** X18: integrating the same two files once more into a table holding
    the rows of a first integration, in any order, gives the rows of that
    first integration again. *)
Theorem integration_rerun :
  forall round2 existing_df combined_df species_df out existing_df',
    PNWTransform.integrate round2 existing_df combined_df species_df = Some out ->
    Permutation existing_df' out ->
    exists out',
      PNWTransform.integrate round2 existing_df' combined_df species_df = Some out' /\
      Permutation out' out.
Proof.
  intros round2 e cdf sdf out e' H Hperm.
  destruct (integrate_parts round2 e cdf sdf out H)
    as (cu & su & Hc & Hs & Hkeep & Hnew).
  unfold PNWTransform.integrate in *. rewrite Hc, Hs in *.
  destruct (PNW.usfs_pnw_unified cu su) as [|x l] eqn:E; [discriminate|].
  destruct (PNWTransform.notes_without_text e); [discriminate|].
  injection H as Hout.
  assert (PNWTransform.notes_without_text e' = false) as Hn.
  { assert (In x e') as Hx.
    { apply (Permutation_in x (Permutation_sym Hperm)). rewrite <- Hout.
      apply in_or_app. right. now left. }
    assert (PNWTransform.is_usfs_row x = true) as Hux.
    { assert (In x (filter PNWTransform.is_usfs_row out)) as Hf
          by (rewrite Hnew; now left).
      apply filter_In in Hf. tauto. }
    unfold PNWTransform.notes_without_text.
    destruct e' as [|y e']; [destruct Hx|].
    apply not_true_is_false. intros Hall.
    rewrite forallb_forall in Hall. specialize (Hall x Hx).
    unfold PNWTransform.is_usfs_row in Hux. destruct (notes x); discriminate. }
  rewrite Hn. eexists. split; [reflexivity|].
  rewrite <- Hout.
  apply Permutation_app_tail.
  rewrite (IntegrationFacts.Permutation_filter _ _ _ Hperm), Hkeep. reflexivity.
Qed.

Lemma integration_rerun_witness :
  exists out',
    PNWTransform.integrate MoreSamples.round_exact (rev MoreSamples.integrated)
      MoreSamples.combined_frame MoreSamples.species_frame = Some out' /\
    Permutation out' MoreSamples.integrated.
Proof.
  apply (integration_rerun MoreSamples.round_exact Samples.sample_out
           MoreSamples.combined_frame MoreSamples.species_frame).
  - vm_compute. reflexivity.
  - apply Permutation_sym, Permutation_rev.
Defined.

(** The parts of a merged table. *)
Lemma tn_merge_parts :
  forall existing_df tn_unified kept added,
    TN.merge existing_df tn_unified = (kept, added) ->
    filter (fun r => negb (TN.is_tn r)) kept =
      filter (fun r => negb (TN.is_tn r)) existing_df /\
    (forall r, In r kept -> In r existing_df) /\
    (forall r, In r added -> In r tn_unified) /\
    (added = [] <-> tn_unified = []) /\
    (forall old new,
        In old kept -> TN.is_tn old = true -> In new added -> year old <> year new).
Proof.
  intros e tn kept added H. unfold TN.merge in H.
  destruct (filter TN.is_tn e) as [|t ts] eqn:Et.
  - injection H as <- <-. repeat split; auto.
    intros old new Ho Hto _ _.
    assert (In old (filter TN.is_tn e)) as Hf by (apply filter_In; now split).
    rewrite Et in Hf. destruct Hf.
  - destruct (filter (fun r => negb (TN.year_isin r (t :: ts))) tn) as [|n ns] eqn:En.
    + injection H as <- <-. repeat split; auto.
      * apply IntegrationFacts.filter_idem.
      * intros r Hr. apply filter_In in Hr. tauto.
      * intros old new Ho Hto _ _. apply filter_In in Ho.
        destruct Ho as [_ Ho]. rewrite Hto in Ho. discriminate.
    + injection H as <- <-. repeat split; auto.
      * intros r Hr. rewrite <- En in Hr. apply filter_In in Hr. tauto.
      * discriminate.
      * intros ->. discriminate.
      * intros old new Ho Hto Hn Hy.
        rewrite <- En in Hn. apply filter_In in Hn. destruct Hn as [_ Hn].
        apply negb_true_iff in Hn.
        assert (TN.year_isin new (t :: ts) = true) as C; [|congruence].
        unfold TN.year_isin. apply existsb_exists. exists old. split.
        -- rewrite <- Et. apply filter_In. now split.
        -- apply (PNWFacts.opt_eqb_eq Z.eqb Z.eqb_eq). now symmetry.
Qed.

(** X19: the Tennessee merge never drops a row of another source, adds
    only rows of the new frame, adds some row unless that frame is empty,
    and never leaves an old Tennessee row beside an added row of the same
    year. *)
Theorem tn_merge_policy :
  forall existing_df tn_unified kept added,
    TN.merge existing_df tn_unified = (kept, added) ->
    filter (fun r => negb (TN.is_tn r)) kept =
      filter (fun r => negb (TN.is_tn r)) existing_df /\
    (forall r, In r kept -> In r existing_df) /\
    (forall r, In r added -> In r tn_unified) /\
    (added = [] <-> tn_unified = []) /\
    (forall old new,
        In old kept -> TN.is_tn old = true -> In new added -> year old <> year new).
Proof. exact tn_merge_parts. Qed.

Lemma tn_merge_policy_witness :
  year MoreSamples.tn_old_2023 <> year MoreSamples.tn_new_2024.
Proof.
  destruct (tn_merge_policy MoreSamples.tn_existing MoreSamples.tn_unified
              MoreSamples.tn_existing [MoreSamples.tn_new_2024] eq_refl)
    as (_ & _ & _ & _ & H).
  apply H.
  - right. left. reflexivity.
  - reflexivity.
  - left. reflexivity.
Defined.

(** X20: when the new Tennessee frame is not empty and holds Tennessee
    rows only, merging it again into the result of a first merge, taken in
    any order, replaces the Tennessee rows wholesale: what is left is the
    rows of other sources of the original table and the new frame. *)
Theorem tn_second_run_replaces :
  forall existing_df tn_unified existing_df',
    tn_unified <> [] ->
    (forall r, In r tn_unified -> TN.is_tn r = true) ->
    Permutation existing_df' (TN.unified_df existing_df tn_unified) ->
    TN.unified_df existing_df' tn_unified =
      (filter (fun r => negb (TN.is_tn r)) existing_df' ++ tn_unified)%list /\
    Permutation (TN.unified_df existing_df' tn_unified)
      (filter (fun r => negb (TN.is_tn r)) existing_df ++ tn_unified)%list.
Proof.
  intros e tn e' Hne Htn Hperm.
  destruct (TN.merge e tn) as [kept added] eqn:Hm.
  destruct (tn_merge_parts e tn kept added Hm) as (Hkeep & _ & Hsub & _ & _).
  assert (TN.unified_df e tn = (kept ++ added)%list) as Hu
      by (unfold TN.unified_df; now rewrite Hm).
  (* every year of the new frame has a Tennessee row in the first result *)
  assert (forall r, In r tn -> TN.year_isin r (filter TN.is_tn e') = true) as Hcov.
  { intros r Hr. unfold TN.year_isin. apply existsb_exists.
    assert (exists o, In o (kept ++ added)%list /\ TN.is_tn o = true /\ year r = year o)
      as [o [Ho [Hto Hy]]].
    { unfold TN.merge in Hm.
      destruct (filter TN.is_tn e) as [|t ts] eqn:Et.
      - injection Hm as <- <-. exists r. repeat split; auto.
        apply in_or_app. now right.
      - destruct (filter (fun r => negb (TN.year_isin r (t :: ts))) tn) as [|n ns] eqn:En.
        + injection Hm as <- <-. exists r. repeat split; auto.
          apply in_or_app. now right.
        + injection Hm as <- <-.
          destruct (TN.year_isin r (t :: ts)) eqn:Ei.
          * unfold TN.year_isin in Ei. apply existsb_exists in Ei.
            destruct Ei as [o [Ho Hy]]. exists o.
            rewrite <- Et in Ho. apply filter_In in Ho. destruct Ho as [Ho Hto].
            repeat split; auto.
            -- apply in_or_app. now left.
            -- now apply (PNWFacts.opt_eqb_eq Z.eqb Z.eqb_eq).
          * exists r. repeat split; auto.
            apply in_or_app. right. rewrite <- En. apply filter_In.
            split; [exact Hr | now rewrite Ei]. }
    exists o. split.
    - apply filter_In. split; [|exact Hto].
      apply (Permutation_in o (Permutation_sym Hperm)). now rewrite Hu.
    - apply (PNWFacts.opt_eqb_eq Z.eqb Z.eqb_eq). exact Hy. }
  assert (TN.unified_df e' tn =
          (filter (fun r => negb (TN.is_tn r)) e' ++ tn)%list) as Hrun.
  { unfold TN.unified_df, TN.merge.
    destruct (filter TN.is_tn e') as [|t ts] eqn:Et.
    - destruct tn as [|r tn']; [now elim Hne|].
      specialize (Hcov r (or_introl eq_refl)). discriminate.
    - rewrite (IntegrationFacts.filter_none _ tn); [reflexivity|].
      intros r Hr. now rewrite (Hcov r Hr). }
  split; [exact Hrun|].
  rewrite Hrun. apply Permutation_app_tail.
  rewrite (IntegrationFacts.Permutation_filter _ _ _ Hperm), Hu, filter_app, Hkeep.
  rewrite (IntegrationFacts.filter_none _ added), app_nil_r; [reflexivity|].
  intros r Hr. now rewrite (Htn r (Hsub r Hr)).
Qed.

Lemma tn_second_run_replaces_witness :
  TN.unified_df (TN.unified_df MoreSamples.tn_existing MoreSamples.tn_unified)
    MoreSamples.tn_unified =
  [Samples.cord_row_no_species; MoreSamples.tn_new_2023; MoreSamples.tn_new_2024].
Proof.
  apply (proj1 (tn_second_run_replaces MoreSamples.tn_existing MoreSamples.tn_unified
                  (TN.unified_df MoreSamples.tn_existing MoreSamples.tn_unified)
                  ltac:(discriminate)
                  ltac:(intros r [<- | [<- | []]]; reflexivity)
                  (Permutation_refl _))).
Defined.

(** *** Table row classifier *)

Import NH NHSpec NHSpec3.

(** C6: a table none of whose cells holds a header keyword adds no record,
    and the records of the page are those of its other tables: the
    classifier goes on with the rest of the document. *)
Theorem table_without_header_yields_nothing :
  forall table,
    no_header_keyword table ->
    (forall ctx, process_table ctx table = []) /\
    (forall info text before after,
        process_page info {| text := text; tables := (before ++ table :: after)%list |} =
        process_page info {| text := text; tables := (before ++ after)%list |}).
Proof.
  intros table H. split.
  - intros ctx. now apply NHFacts.process_table_no_header.
  - intros info txt before after. unfold process_page. cbn [text tables].
    destruct txt as [[|c t]|]; try reflexivity.
    rewrite !flat_map_app. cbn [flat_map].
    now rewrite (NHFacts.process_table_no_header _ table H).
Qed.

Lemma table_without_header_yields_nothing_witness :
  process_table Samples.sample_ctx Samples.headerless_table = [] /\
  process_page Samples.sample_info
    {| text := Some "Northern"; tables := [Samples.headerless_table; Samples.good_table] |} =
  process_page Samples.sample_info
    {| text := Some "Northern"; tables := [Samples.good_table] |}.
Proof.
  assert (no_header_keyword Samples.headerless_table) as H.
  { intros row c Hr Hc. simpl in Hr.
    destruct Hr as [<- | [<- | []]]; simpl in Hc;
      repeat (destruct Hc as [<- | Hc]; [reflexivity|]); destruct Hc. }
  split.
  - apply (proj1 (table_without_header_yields_nothing Samples.headerless_table H)).
  - apply (proj2 (table_without_header_yields_nothing Samples.headerless_table H)
             Samples.sample_info (Some "Northern") [] [Samples.good_table]).
Defined.






(** *** Further properties of the table row classifier *)

Import NHSpec2.

(** X21: every record [parse_stumpage_pdf] returns has a species that is
    not empty, is trimmed and holds none of the rejected keywords, has a
    low or a high price, has one of the four region labels, and has a
    trimmed product type and unit. *)
Theorem nh_record_invariants :
  forall filename pages r,
    In r (parse_stumpage_pdf filename pages) ->
    species r <> "" /\ strip (species r) = species r /\
    existsb (fun keyword => contains keyword (upper (species r))) reject_keywords = false /\
    (price_low r <> None \/ price_high r <> None) /\
    In (region r) ["Northern"; "Central"; "Southern"; "Unknown"] /\
    strip (product_type r) = product_type r /\ strip (unit r) = unit r.
Proof.
  intros filename pages r H.
  destruct (NHMoreFacts.parse_stumpage_pdf_In filename pages r H)
    as (page & txt & table & row & _ & _ & _ & _ & Hc).
  destruct (NHMoreFacts.classify_row_record _ row r Hc) as (-> & Hd & Hp).
  unfold data_row in Hd.
  apply andb_prop in Hd. destruct Hd as [Hd H4].
  apply andb_prop in Hd. destruct Hd as [Hd H3].
  apply negb_true_iff in H3, H4.
  cbn [species region product_type unit record_of current_region page_context].
  split; [now apply String.eqb_neq|].
  split; [apply NHMoreFacts.strip_or_empty_stripped|].
  split; [exact H3|]. split; [exact Hp|].
  split.
  - pose proof (NHMoreFacts.region_of_text_range txt) as Hr. simpl in Hr.
    destruct Hr as [<- | [<- | [<- | [<- | []]]]]; simpl; tauto.
  - split.
    + destruct (5 <=? List.length row)%nat;
        [apply NHMoreFacts.strip_or_empty_stripped | reflexivity].
    + destruct (5 <=? List.length row)%nat;
        [apply NHMoreFacts.strip_or_empty_stripped|].
      destruct (4 <=? List.length row)%nat;
        [apply NHMoreFacts.strip_or_empty_stripped | reflexivity].
Qed.

Lemma nh_record_invariants_witness :
  exists r,
    In r (parse_stumpage_pdf "avg-stump-val-10-24-03-25.pdf"
            [{| text := Some "Northern region"; tables := [Samples.good_table] |}]) /\
    species r <> "" /\ (price_low r <> None \/ price_high r <> None).
Proof.
  eexists. split; [left; reflexivity|].
  match goal with
  | |- species ?r <> _ /\ _ =>
      destruct (nh_record_invariants "avg-stump-val-10-24-03-25.pdf"
                  [{| text := Some "Northern region"; tables := [Samples.good_table] |}] r)
        as (H1 & _ & _ & H4 & _)
  end.
  - left. reflexivity.
  - split; assumption.
Defined.

(** X22: the records of a file are dated by its name: the year is the
    start year, the period is Spring for a start month from April to
    September and Fall otherwise; the records of a file whose name does
    not follow the pattern are dated 2024, Fall, 00/2024-00/2024. *)
Theorem nh_record_dating :
  forall filename pages r,
    In r (parse_stumpage_pdf filename pages) ->
    match parse_period_from_filename filename with
    | Some info =>
        year r = start_year info /\
        (period r = "Spring" <->
         (4 <= month_int (start_month info) <= 9)%Z) /\
        (period r = "Fall" <->
         ~ (4 <= month_int (start_month info) <= 9)%Z)
    | None =>
        year r = "2024" /\ period r = "Fall" /\ period_dates r = "00/2024-00/2024"
    end.
Proof.
  intros filename pages r H.
  destruct (NHMoreFacts.parse_stumpage_pdf_In filename pages r H)
    as (page & txt & table & row & _ & _ & _ & _ & Hc).
  destruct (NHMoreFacts.classify_row_record _ row r Hc) as (-> & _ & _).
  cbn [year period period_dates record_of page_context ctx_year ctx_period
       ctx_period_dates].
  unfold period_info_of.
  destruct (parse_period_from_filename filename) as [info|].
  - split; [reflexivity|]. unfold determine_period.
    destruct (4 <=? month_int (start_month info))%Z eqn:E1;
      destruct (month_int (start_month info) <=? 9)%Z eqn:E2; simpl;
      rewrite ?Z.leb_le, ?Z.leb_gt in *;
      (split; split; intros; try discriminate; try reflexivity; lia).
  - repeat split.
Qed.

Lemma nh_record_dating_witness :
  exists r,
    In r (parse_stumpage_pdf "stumpage.pdf"
            [{| text := Some "Northern region"; tables := [Samples.good_table] |}]) /\
    year r = "2024" /\ period r = "Fall" /\ period_dates r = "00/2024-00/2024".
Proof.
  eexists. split; [left; reflexivity|].
  match goal with
  | |- year ?r = _ /\ _ =>
      apply (nh_record_dating "stumpage.pdf"
               [{| text := Some "Northern region"; tables := [Samples.good_table] |}] r)
  end.
  left. reflexivity.
Defined.

(** X23: a file name is understood exactly when it starts with
    [avg-stump-val-MM-YY-MM-YY.pdf], and then the months are those of the
    name and the years those of the name behind the century 20. *)
Theorem filename_round_trip :
  forall filename info,
    parse_period_from_filename filename = Some info <->
    exists sm sy em ey rest,
      two_digit_text sm /\ two_digit_text sy /\
      two_digit_text em /\ two_digit_text ey /\
      filename = "avg-stump-val-" ++ sm ++ "-" ++ sy ++ "-" ++ em ++ "-" ++ ey
                 ++ ".pdf" ++ rest /\
      info = {| start_month := sm; start_year := "20" ++ sy;
                end_month := em; end_year := "20" ++ ey |}.
Proof.
  assert (forall p s t, after_prefix p s = Some t <-> s = p ++ t) as Hap.
  { induction p as [|a p IH]; intros s t; simpl.
    - destruct s; split; congruence.
    - destruct s as [|b s]; [split; discriminate|].
      destruct (Ascii.eqb_spec a b) as [<- | Hne].
      + rewrite IH. split; [now intros -> | intros E; now injection E]. 
      + split; [discriminate | intros E; injection E as E _; now elim Hne]. }
  assert (forall s d t, two_digits s = Some (d, t) <-> two_digit_text d /\ s = d ++ t)
    as Htd.
  { intros s d t. unfold two_digits, two_digit_text. split.
    - destruct s as [|a [|b rest]]; try discriminate.
      destruct (is_digit a) eqn:Ea, (is_digit b) eqn:Eb; try discriminate.
      intros E. injection E as <- <-. split; [|reflexivity].
      exists a, b. auto.
    - intros [(a & b & -> & Ea & Eb) ->]. simpl. now rewrite Ea, Eb. }
  intros filename info. unfold parse_period_from_filename. split.
  - intros H.
    destruct (after_prefix "avg-stump-val-" filename) as [s0|] eqn:E0; [|discriminate].
    destruct (two_digits s0) as [[sm s1]|] eqn:E1; [|discriminate].
    destruct (after_prefix "-" s1) as [s2|] eqn:E2; [|discriminate].
    destruct (two_digits s2) as [[sy s3]|] eqn:E3; [|discriminate].
    destruct (after_prefix "-" s3) as [s4|] eqn:E4; [|discriminate].
    destruct (two_digits s4) as [[em s5]|] eqn:E5; [|discriminate].
    destruct (after_prefix "-" s5) as [s6|] eqn:E6; [|discriminate].
    destruct (two_digits s6) as [[ey s7]|] eqn:E7; [|discriminate].
    destruct (after_prefix ".pdf" s7) as [rest|] eqn:E8; [|discriminate].
    injection H as <-.
    apply Hap in E0, E2, E4, E6, E8. apply Htd in E1, E3, E5, E7.
    destruct E1 as [D1 E1], E3 as [D3 E3], E5 as [D5 E5], E7 as [D7 E7].
    exists sm, sy, em, ey, rest. repeat split; try assumption.
    subst. reflexivity.
  - intros (sm & sy & em & ey & rest & D1 & D3 & D5 & D7 & -> & ->).
    rewrite (proj2 (Hap "avg-stump-val-" _ _) eq_refl).
    rewrite (proj2 (Htd _ sm _) (conj D1 eq_refl)).
    rewrite (proj2 (Hap "-" _ _) eq_refl).
    rewrite (proj2 (Htd _ sy _) (conj D3 eq_refl)).
    rewrite (proj2 (Hap "-" _ _) eq_refl).
    rewrite (proj2 (Htd _ em _) (conj D5 eq_refl)).
    rewrite (proj2 (Hap "-" _ _) eq_refl).
    rewrite (proj2 (Htd _ ey _) (conj D7 eq_refl)).
    rewrite (proj2 (Hap ".pdf" _ _) eq_refl).
    reflexivity.
Qed.

Lemma filename_round_trip_witness :
  parse_period_from_filename "avg-stump-val-10-24-03-25.pdf.bak" =
  Some {| start_month := "10"; start_year := "2024";
          end_month := "03"; end_year := "2025" |}.
Proof.
  apply (proj2 (filename_round_trip "avg-stump-val-10-24-03-25.pdf.bak" _)).
  exists "10", "24", "03", "25", ".bak".
  repeat split; unfold two_digit_text; eauto.
Defined.

(** X24: the region of the records of a page follows the page text, with
    SOUTHERN taking precedence over CENTRAL and CENTRAL over NORTHERN; a
    page naming none of them gives the region Unknown. *)
Theorem region_precedence :
  forall info page txt r,
    text page = Some txt ->
    In r (process_page info page) ->
    (contains "SOUTHERN" (upper txt) = true -> region r = "Southern") /\
    (contains "SOUTHERN" (upper txt) = false -> contains "CENTRAL" (upper txt) = true ->
     region r = "Central") /\
    (contains "SOUTHERN" (upper txt) = false -> contains "CENTRAL" (upper txt) = false ->
     contains "NORTHERN" (upper txt) = true -> region r = "Northern") /\
    (contains "SOUTHERN" (upper txt) = false -> contains "CENTRAL" (upper txt) = false ->
     contains "NORTHERN" (upper txt) = false -> region r = "Unknown").
Proof.
  intros info page txt r Ht H.
  destruct (NHMoreFacts.process_page_In info page r H)
    as (txt' & table & row & Ht' & _ & _ & Hc).
  rewrite Ht in Ht'. injection Ht' as <-.
  destruct (NHMoreFacts.classify_row_record _ row r Hc) as (-> & _ & _).
  cbn [region record_of current_region page_context]. unfold region_of_text.
  repeat split; intros;
    repeat match goal with E : contains _ _ = _ |- _ => rewrite E; clear E end;
    try reflexivity;
    destruct (contains "CENTRAL" (upper txt)), (contains "NORTHERN" (upper txt));
    reflexivity.
Qed.

Lemma region_precedence_witness :
  exists r,
    In r (process_page Samples.sample_info
            {| text := Some "Northern and Southern regions";
               tables := [Samples.good_table] |}) /\
    region r = "Southern".
Proof.
  eexists. split; [left; reflexivity|].
  match goal with
  | |- region ?r = _ =>
      apply (region_precedence Samples.sample_info
               {| text := Some "Northern and Southern regions";
                  tables := [Samples.good_table] |}
               "Northern and Southern regions" r eq_refl)
  end.
  - left. reflexivity.
  - reflexivity.
Defined.

(** X25: dollar signs and commas, wherever they stand in the text, do not
    change the price read from it. *)
Theorem clean_price_value_ignores_symbols :
  forall value,
    clean_price_value (replace_char "$" "" value) = clean_price_value value /\
    clean_price_value (replace_char "," "" value) = clean_price_value value.
Proof.
  intros value. split; apply NHMoreFacts.clean_after_removal; auto.
Qed.

(** X26: cells beyond the fifth play no part: a row gives what its first
    five cells give. *)
Theorem cells_beyond_fifth_ignored :
  forall ctx c0 c1 c2 c3 c4 extra,
    classify_row ctx (c0 :: c1 :: c2 :: c3 :: c4 :: extra) =
    classify_row ctx [c0; c1; c2; c3; c4].
Proof.
  intros ctx c0 c1 c2 c3 c4 extra. unfold classify_row.
  cbn [List.length Nat.ltb Nat.leb cell nth].
  destruct (strip_or_empty c0 =? "") eqn:E.
  - repeat match goal with
           | |- context [if ?c then None else _] => destruct c
           end; reflexivity.
  - assert (truthy c0 = true /\ blank_cell c0 = false) as [Ht Hb].
    { destruct c0 as [[|a t]|]; try discriminate E.
      cbn [strip_or_empty truthy] in E. split; [reflexivity|].
      cbn [blank_cell truthy negb orb]. exact E. }
    cbn [existsb forallb]. rewrite Ht, Hb. reflexivity.
Qed.

(** X27: the rows of a table up to and including its first header row give
    no record; the records of the table are those of the rows behind it. *)
Theorem rows_before_header_ignored :
  forall ctx before header after,
    (forall row, In row before -> is_header_row row = false) ->
    is_header_row header = true ->
    process_table ctx (before ++ header :: after) = classify_rows ctx after.
Proof.
  intros ctx before header after Hb Hh. unfold process_table.
  assert (rows_after_header (before ++ header :: after) = Some after) as E.
  { induction before as [|row before IH]; simpl.
    - now rewrite Hh.
    - rewrite (Hb row (or_introl eq_refl)). apply IH.
      intros r Hr. apply Hb. now right. }
  rewrite E.
  destruct before as [|b [|b' before]]; [destruct after as [|a after]| |]; reflexivity.
Qed.

Lemma rows_before_header_ignored_witness :
  process_table Samples.sample_ctx
    ([[Some "Report"; None; Some "2024"]] ++ Samples.header_row :: [Samples.white_oak_row]) =
  classify_rows Samples.sample_ctx [Samples.white_oak_row].
Proof.
  apply (rows_before_header_ignored Samples.sample_ctx
           [[Some "Report"; None; Some "2024"]] Samples.header_row [Samples.white_oak_row]).
  - intros row [<- | []]. reflexivity.
  - reflexivity.
Defined.
